(** * BankStream: the credential-verification and session-issuance core

    A shallow embedding of [core_apps/user_auth] (models.py, utils.py,
    emails.py, views.py, managers.py and the email checks of forms.py) and
    of the policy constants of [bankStream/settings/base.py], with the
    properties of the lockout policy, the one-time passcode, the login
    state machine, the session cookies and the user manager.

    Conventions.
    - A [datetime] is an integer number of microseconds since the epoch and
      a [timedelta] an integer number of microseconds; both are [Z].
    - Every call of [timezone.now()] is an explicit argument of the function
      that makes it, so a view that reads the clock three times takes three
      instants.
    - [self.save()] is the write-back of the returned record into the table;
      a table is the list of its rows in the default ordering of the model
      and a row is named by its position.  The write that the table can
      refuse, a failure counter past the largest value of its column, is
      [Models.save]; the functions named [_saved] have it.
    - A Python exception is the [Raise] case of [result]. *)

From Stdlib Require Import ZArith String List Bool Lia.
From stdpp Require Import base option list strings gmap.

Local Open Scope Z_scope.
Local Open Scope nat_scope.

(** ** Values shared by the modules *)

Definition Time : Type := Z.
Definition Timedelta : Type := Z.

Inductive exn : Type :=
| TypeError
| DataError
| AttributeError.

Inductive result (A : Type) : Type :=
| Ok (a : A)
| Raise (e : exn).

Arguments Ok {A} a.
Arguments Raise {A} e.

(** [settings]: the policy constants the core reads.  [LOGIN_ATTEMPTS],
    [LOCKOUT_DURATION] and [OTP_EXPIRATION] are read by models.py and
    views.py but are not assigned in base.py, so they are fields whose value
    is left open; the cookie constants and the token lifetimes are those of
    base.py ([COOKIE_SECURE] comes from the environment). *)
Record Settings : Type := mkSettings {
  LOGIN_ATTEMPTS : Z;
  LOCKOUT_DURATION : Timedelta;
  OTP_EXPIRATION : Timedelta;
  COOKIE_SECURE : bool
}.

Definition COOKIE_SAMESITE : string := "Lax".
Definition COOKIE_PATH : string := "/".
Definition COOKIE_HTTPONLY : bool := true.

(** [timedelta(minutes=30)] and [timedelta(days=1)]. *)
Definition minutes (n : Z) : Timedelta := (n * 60 * 1000000)%Z.
Definition days (n : Z) : Timedelta := (n * 24 * 60 * 60 * 1000000)%Z.

(** ** emails.py: the notifications, as the messages handed to the mailer *)

Inductive Mail : Type :=
| OtpMail (recipient : string) (otp_code : string) (expiry_time : Timedelta)
| AccountLockedMail (recipient : string) (lockout_duration : Z).

(** ** models.py *)

Module Models.

Inductive AccountStatus : Type :=
| ACTIVE
| LOCKED.

Record User : Type := mkUser {
  user_id : nat;
  email : string;
  password : string;
  account_status : AccountStatus;
  failed_login_attempts : nat;
  last_failed_login : option Time;
  otp : string;
  otp_expiry_time : option Time
}.

(** Assignment to the two OTP attributes, every other attribute kept. *)
Definition assign_otp (self : User) (o : string) (e : option Time) : User :=
  {| user_id := user_id self;
     email := email self;
     password := password self;
     account_status := account_status self;
     failed_login_attempts := failed_login_attempts self;
     last_failed_login := last_failed_login self;
     otp := o;
     otp_expiry_time := e |}.

(** Assignment to the three lockout attributes, every other attribute
    kept. *)
Definition assign_lockout (self : User) (s : AccountStatus) (n : nat)
    (l : option Time) : User :=
  {| user_id := user_id self;
     email := email self;
     password := password self;
     account_status := s;
     failed_login_attempts := n;
     last_failed_login := l;
     otp := otp self;
     otp_expiry_time := otp_expiry_time self |}.

(** [int(settings.LOCKOUT_DURATION.total_seconds() // 60)] *)
Definition lockout_minutes (settings : Settings) : Z :=
  (LOCKOUT_DURATION settings / 1000000 / 60)%Z.

Definition send_account_locked_email (settings : Settings) (self : User)
    : Mail :=
  AccountLockedMail (email self) (lockout_minutes settings).

Section Methods.

Variable settings : Settings.

Definition set_otp (self : User) (otp_ : string) (now : Time) : User :=
  assign_otp self otp_ (Some (now + OTP_EXPIRATION settings)%Z).

(** [self.otp == otp and self.otp_expiry_time > timezone.now()]: the
    right operand is evaluated only when the codes are equal, and
    comparing [None] with a datetime raises [TypeError]. *)
Definition verify_otp (self : User) (otp_ : string) (now : Time)
    : result (bool * User) :=
  if String.eqb (otp self) otp_ then
    match otp_expiry_time self with
    | None => Raise TypeError
    | Some expiry =>
        if (now <? expiry)%Z
        then Ok (true, assign_otp self EmptyString None)
        else Ok (false, self)
    end
  else Ok (false, self).

(** The assignments of [handle_failed_login_attempts] on the object in
    memory, where the counter is a Python integer, and the mail it sends.
    Its writes to the row, which the column of the counter can refuse, are
    in [handle_failed_login_attempts_saved] below. *)
Definition handle_failed_login_attempts (self : User) (now : Time)
    : User * list Mail :=
  let attempts := S (failed_login_attempts self) in
  if (LOGIN_ATTEMPTS settings <=? Z.of_nat attempts)%Z
  then (assign_lockout self LOCKED attempts (Some now),
        [send_account_locked_email settings self])
  else (assign_lockout self (account_status self) attempts (Some now),
        []).

Definition reset_failed_login_attempts (self : User) : User :=
  assign_lockout self ACTIVE 0 None.

Definition unlock_account (self : User) : User :=
  match account_status self with
  | LOCKED => assign_lockout self ACTIVE 0 None
  | ACTIVE => self
  end.

(** The property [is_locked_out]: its value and the record after the
    read (a read that finds the lockout expired unlocks the account).
    A datetime is always truthy, so [self.last_failed_login and ...]
    is false only for [None]. *)
Definition is_locked_out (self : User) (now : Time) : bool * User :=
  match account_status self with
  | LOCKED =>
      match last_failed_login self with
      | Some last =>
          if (LOCKOUT_DURATION settings <? now - last)%Z
          then (false, unlock_account self)
          else (true, self)
      | None => (true, self)
      end
  | ACTIVE => (false, self)
  end.

(** The calls the core makes on one identity. *)
Inductive Call : Type :=
| CallSetOtp (otp_ : string)
| CallVerifyOtp (otp_ : string)
| CallHandleFailedLoginAttempts
| CallResetFailedLoginAttempts
| CallUnlockAccount
| CallIsLockedOut.

Definition call (c : Call) (now : Time) (self : User) : result User :=
  match c with
  | CallSetOtp o => Ok (set_otp self o now)
  | CallVerifyOtp o =>
      match verify_otp self o now with
      | Ok (_, self') => Ok self'
      | Raise e => Raise e
      end
  | CallHandleFailedLoginAttempts =>
      Ok (fst (handle_failed_login_attempts self now))
  | CallResetFailedLoginAttempts => Ok (reset_failed_login_attempts self)
  | CallUnlockAccount => Ok (unlock_account self)
  | CallIsLockedOut => Ok (snd (is_locked_out self now))
  end.

(** A sequence of calls, each at its instant; an exception ends it. *)
Fixpoint run (calls : list (Call * Time)) (self : User) : result User :=
  match calls with
  | [] => Ok self
  | (c, now) :: rest =>
      match call c now self with
      | Ok self' => run rest self'
      | Raise e => Raise e
      end
  end.

(** The column of [failed_login_attempts]: the field is a
    [PositiveSmallIntegerField] and the engine of [DATABASES] in base.py is
    PostgreSQL, so the column holds 0 to 32767. *)
Definition SMALLINT_MAX : Z := 32767.

(** [self.save()] as far as the counter goes: the row is written when the
    counter fits its column, and [DataError] is raised, with nothing
    written, when it does not. *)
Definition save (self : User) : result User :=
  if (Z.of_nat (failed_login_attempts self) <=? SMALLINT_MAX)%Z
  then Ok self
  else Raise DataError.

(** [handle_failed_login_attempts] with its writes: the assignments above
    are made on the object, and the first [save] either stores them or
    raises; when it raises, the row is as before and no mail is sent. *)
Definition handle_failed_login_attempts_saved (self : User) (now : Time)
    : result (User * list Mail) :=
  match save (fst (handle_failed_login_attempts self now)) with
  | Ok _ => Ok (handle_failed_login_attempts self now)
  | Raise e => Raise e
  end.

(** One failed login after the other, each stored before the next; an
    exception ends the sequence. *)
Fixpoint handle_failed_login_attempts_each (self : User)
    (instants : list Time) : result User :=
  match instants with
  | [] => Ok self
  | now :: rest =>
      match handle_failed_login_attempts_saved self now with
      | Ok (self', _) => handle_failed_login_attempts_each self' rest
      | Raise e => Raise e
      end
  end.


End Methods.

End Models.

(** ** utils.py *)

Module Utils.

(** [string.digits] *)
Definition digits : string := "0123456789".

(** [secrets.choice(seq)] is [seq[randbelow(len(seq))]]; the number drawn
    from the random source is the argument [draw]. *)
Definition choice (draw : nat) (seq_ : string) : Ascii.ascii :=
  match String.get (draw mod String.length seq_) seq_ with
  | Some c => c
  | None => Ascii.zero
  end.

(** [generate_otp(length=6)]; [draws k] is the k-th number the random
    source yields. *)
Definition generate_otp (draws : nat -> nat) (length_ : nat) : string :=
  string_of_list_ascii
    (map (fun k => choice (draws k) digits) (seq 0 length_)).

End Utils.

(** ** Python [str] methods on ASCII text

    The names and the bank name below are taken to be ASCII text, a [str]
    being the list of its characters. *)

Module Text.

Definition ord (c : Ascii.ascii) : nat := Ascii.nat_of_ascii c.

(** The characters [" "], ["."], ["-"] and ["_"]. *)
Definition space : Ascii.ascii := Ascii.ascii_of_nat 32.
Definition dot : Ascii.ascii := Ascii.ascii_of_nat 46.
Definition hyphen : Ascii.ascii := Ascii.ascii_of_nat 45.
Definition underscore : Ascii.ascii := Ascii.ascii_of_nat 95.

(** [str.isspace]: tab to carriage return, the four separators and the
    space. *)
Definition isspace (c : Ascii.ascii) : bool :=
  ((9 <=? ord c) && (ord c <=? 13)) || ((28 <=? ord c) && (ord c <=? 32)).

Definition islower (c : Ascii.ascii) : bool :=
  (97 <=? ord c) && (ord c <=? 122).

Definition isupper (c : Ascii.ascii) : bool :=
  (65 <=? ord c) && (ord c <=? 90).

Definition upper (c : Ascii.ascii) : Ascii.ascii :=
  if islower c then Ascii.ascii_of_nat (ord c - 32) else c.

Definition lower (c : Ascii.ascii) : Ascii.ascii :=
  if isupper c then Ascii.ascii_of_nat (ord c + 32) else c.

Fixpoint lstrip (s : list Ascii.ascii) : list Ascii.ascii :=
  match s with
  | [] => []
  | c :: rest => if isspace c then lstrip rest else s
  end.

Definition rstrip (s : list Ascii.ascii) : list Ascii.ascii :=
  rev (lstrip (rev s)).

Definition strip (s : list Ascii.ascii) : list Ascii.ascii :=
  rstrip (lstrip s).

(** [str.title]: a cased character is put in upper case when the character
    before it is not cased, and in lower case when it is. *)
Fixpoint title_from (previous_is_cased : bool) (s : list Ascii.ascii)
    : list Ascii.ascii :=
  match s with
  | [] => []
  | c :: rest =>
      if islower c then
        (if previous_is_cased then c else upper c) :: title_from true rest
      else if isupper c then
        (if previous_is_cased then lower c else c) :: title_from true rest
      else c :: title_from false rest
  end.

Definition title (s : list Ascii.ascii) : list Ascii.ascii :=
  title_from false s.

(** [s.replace(old, new)] for one-character [old] and [new]. *)
Definition replace (old new : Ascii.ascii) (s : list Ascii.ascii)
    : list Ascii.ascii :=
  map (fun c => if Ascii.eqb c old then new else c) s.

(** [s.split()]: the maximal runs of characters that are not whitespace;
    [word] is the run being read, last character first. *)
Fixpoint split_from (word : list Ascii.ascii) (s : list Ascii.ascii)
    : list (list Ascii.ascii) :=
  match s with
  | [] =>
      match word with
      | [] => []
      | _ :: _ => [rev word]
      end
  | c :: rest =>
      if isspace c then
        match word with
        | [] => split_from [] rest
        | _ :: _ => rev word :: split_from [] rest
        end
      else split_from (c :: word) rest
  end.

Definition split (s : list Ascii.ascii) : list (list Ascii.ascii) :=
  split_from [] s.

(** Title case: no upper-case letter right after a letter, no lower-case
    letter at the start or right after a character that is not a letter. *)
Fixpoint titled (previous_is_cased : bool) (s : list Ascii.ascii) : Prop :=
  match s with
  | [] => True
  | c :: rest =>
      (if previous_is_cased then isupper c = false else islower c = false)
      /\ titled (islower c || isupper c) rest
  end.

End Text.

(** ** Session tokens

    [rest_framework_simplejwt] is a collaborator outside the repository.
    The views only move its tokens between the request, the response body
    and the cookies, so a token is kept symbolic: [Jwt p] is the string that
    carries the payload [p] under the signature of [SIGNING_KEY], [Str s] is
    any other string.  [Config] has the flags of [SIMPLE_JWT] in base.py;
    [BLACKLIST_AFTER_ROTATION] is not assigned there and
    [rest_framework_simplejwt.token_blacklist] is not in [INSTALLED_APPS],
    so [SIMPLE_JWT] below has both off (the library's defaults). *)

Module SimpleJWT.

Inductive TokenType : Type :=
| access
| refresh.

Record Payload : Type := mkPayload {
  token_type : TokenType;
  user_id_claim : nat;
  jti : nat;
  exp : Time
}.

Inductive Value : Type :=
| Str (s : string)
| Jwt (p : Payload).

Record Config : Type := mkConfig {
  ACCESS_TOKEN_LIFETIME : Timedelta;
  REFRESH_TOKEN_LIFETIME : Timedelta;
  ROTATE_REFRESH_TOKENS : bool;
  BLACKLIST_AFTER_ROTATION : bool;
  token_blacklist_installed : bool
}.

Definition SIMPLE_JWT : Config :=
  {| ACCESS_TOKEN_LIFETIME := minutes 30;
     REFRESH_TOKEN_LIFETIME := days 1;
     ROTATE_REFRESH_TOKENS := true;
     BLACKLIST_AFTER_ROTATION := false;
     token_blacklist_installed := false |}.

Definition is_refresh (t : TokenType) : bool :=
  match t with
  | refresh => true
  | access => false
  end.

(** [RefreshToken.for_user(user)] and its [access_token], minted at [now]
    with the identifiers the uuid source yields. *)
Definition for_user (cfg : Config) (uid : nat) (now : Time)
    (jti_refresh jti_access : nat) : Payload * Payload :=
  ({| token_type := refresh; user_id_claim := uid; jti := jti_refresh;
      exp := (now + REFRESH_TOKEN_LIFETIME cfg)%Z |},
   {| token_type := access; user_id_claim := uid; jti := jti_access;
      exp := (now + ACCESS_TOKEN_LIFETIME cfg)%Z |}).

(** The reasons for which the library refuses a token. *)
Inductive TokenError : Type :=
| invalid_or_expired
| blacklisted
| wrong_type.

Definition detail (e : TokenError) : string :=
  match e with
  | invalid_or_expired => "Token is invalid or expired"
  | blacklisted => "Token is blacklisted"
  | wrong_type => "Token has wrong type"
  end.

(** [RefreshToken(raw)]: decoding checks the signature and the expiry, then
    the blacklist is consulted, only when its app is installed, and then the
    token type is checked. *)
Definition verify_refresh (cfg : Config) (blacklist : gset nat) (now : Time)
    (raw : Value) : TokenError + Payload :=
  match raw with
  | Str _ => inl invalid_or_expired
  | Jwt p =>
      if negb (now <? exp p)%Z then inl invalid_or_expired
      else if token_blacklist_installed cfg
              && bool_decide (jti p ∈ blacklist)
      then inl blacklisted
      else if is_refresh (token_type p) then inr p
      else inl wrong_type
  end.

(** A [CharField] of the serializer takes a string that is empty, or empty
    once its whitespace is trimmed, for blank. *)
Definition blank (raw : Value) : bool :=
  match raw with
  | Str s => bool_decide (Text.strip (list_ascii_of_string s) = [])
  | Jwt _ => false
  end.

End SimpleJWT.

(** ** views.py *)

Module Views.

Import Models SimpleJWT.

Record Cookie : Type := mkCookie {
  value : Value;
  path : string;
  secure : bool;
  httponly : bool;
  samesite : string;
  max_age : Timedelta
}.

Record Response : Type := mkResponse {
  status_code : nat;
  data : gmap string Value;
  cookies : gmap string Cookie
}.

Definition HTTP_200_OK : nat := 200.
Definition HTTP_400_BAD_REQUEST : nat := 400.
Definition HTTP_401_UNAUTHORIZED : nat := 401.
Definition HTTP_403_FORBIDDEN : nat := 403.

(** [Response(data, status=...)] *)
Definition respond (body : list (string * Value)) (status : nat) : Response :=
  {| status_code := status; data := list_to_map body; cookies := ∅ |}.

Definition set_cookie (response : Response) (key : string) (c : Cookie)
    : Response :=
  {| status_code := status_code response;
     data := data response;
     cookies := <[key := c]> (cookies response) |}.

Definition set_data (response : Response) (d : gmap string Value)
    : Response :=
  {| status_code := status_code response;
     data := d;
     cookies := cookies response |}.

(** Truth value of [d.get(key)] for a string-valued entry. *)
Definition truthy (v : option Value) : bool :=
  match v with
  | None => false
  | Some (Str EmptyString) => false
  | Some _ => true
  end.

(** [User.objects.filter(...).first()]: the first row, in the default
    ordering, that satisfies the lookups, with its position. *)
Definition first_row (lookups : User -> bool) (db : list User)
    : option (nat * User) :=
  list_find (fun u => lookups u = true) db.

(** The body of a login request, [request.data]. *)
Record LoginData : Type := mkLoginData {
  data_email : option string;
  data_password : option string
}.

(** The request of the refresh view: its cookies and its body. *)
Record Request : Type := mkRequest {
  COOKIES : gmap string Value;
  request_data : gmap string Value
}.

Section WithSettings.

Variable settings : Settings.

(** djoser's [TokenCreateSerializer], outside the repository:
    [credentials_ok u d] says that the submitted data [d]
    authenticates the stored identity [u]; [is_valid] raises when no
    stored identity authenticates and sets [serializer.user]
    otherwise. *)
Variable credentials_ok : User -> LoginData -> bool.

(** The text of a float in an f-string, [{x}] and [{x:.0f}], for
    [settings.LOCKOUT_DURATION.total_seconds() / 60]. *)
Variable str_minutes : Timedelta -> string.
Variable str_minutes_0f : Timedelta -> string.

Definition set_auth_cookies (cfg : Config) (response : Response)
    (access_token : Value) (refresh_token : option Value) : Response :=
  let cookie_settings (v : Value) (h : bool) (age : Timedelta) :=
    {| value := v; path := COOKIE_PATH; secure := COOKIE_SECURE settings;
       httponly := h; samesite := COOKIE_SAMESITE; max_age := age |} in
  let response :=
    set_cookie response "access"
      (cookie_settings access_token COOKIE_HTTPONLY
         (ACCESS_TOKEN_LIFETIME cfg)) in
  let response :=
    match refresh_token with
    | Some r =>
        if truthy refresh_token
        then set_cookie response "refresh"
               (cookie_settings r COOKIE_HTTPONLY
                  (REFRESH_TOKEN_LIFETIME cfg))
        else response
    | None => response
    end in
  set_cookie response "logged_in"
    (cookie_settings (Str "true") false (ACCESS_TOKEN_LIFETIME cfg)).

(** *** [CustomTokenCreateView] *)

Definition locked_response : Response :=
  respond
    [("error",
      Str ("Account is locked due to multiple failed login attempts."
           +:+ "Please try again after "
           +:+ str_minutes (LOCKOUT_DURATION settings)
           +:+ " minutes."))]
    HTTP_403_FORBIDDEN.

Definition otp_sent_response (user : User) : Response :=
  respond
    [("success",
      Str "OTP sent to your email. Please verify to complete login.");
     ("email", Str (email user))]
    HTTP_200_OK.

Definition exceeded_attempts_response : Response :=
  respond
    [("error",
      Str "You have exceeded the maximum number of login attempts.");
     ("details",
      Str ("Your account has been locked for "
           +:+ str_minutes_0f (LOCKOUT_DURATION settings)
           +:+ " minutes."));
     ("further_instructions",
      Str "An email has been sent to you with further instructions.")]
    HTTP_403_FORBIDDEN.

Definition invalid_credentials_response : Response :=
  respond
    [("error", Str "Invalid credentials. Please try again.")]
    HTTP_400_BAD_REQUEST.

(** [_action(serializer)], with [serializer.user] the row [i] of the
    table.  The result is the response, the table and the mail handed
    to the mailer.  [send_otp_email] logs a failure to send and never
    raises. *)
Definition CustomTokenCreateView_action (db : list User) (i : nat)
    (user : User) (now_gate now_otp : Time) (draws : nat -> nat)
    : Response * list User * list Mail :=
  let '(locked, user) := is_locked_out settings user now_gate in
  if locked then (locked_response, db, [])
  else
    let user := reset_failed_login_attempts user in
    let otp_ := Utils.generate_otp draws 6 in
    let user := set_otp settings user otp_ now_otp in
    (otp_sent_response user, <[i := user]> db,
     [OtpMail (email user) otp_ (OTP_EXPIRATION settings)]).

(** [post(request)], with the assignments of a failed login written to the
    row as they are; [CustomTokenCreateView_post_saved] below has the write
    that the column of the counter can refuse. *)
Definition CustomTokenCreateView_post (db : list User)
    (request : LoginData) (now_fail now_gate now_otp : Time)
    (draws : nat -> nat) : Response * list User * list Mail :=
  match first_row (fun u => credentials_ok u request) db with
  | None =>
      match first_row
              (fun u => bool_decide (Some (email u) = data_email request))
              db with
      | Some (i, user) =>
          let '(user, mails) :=
            handle_failed_login_attempts settings user now_fail in
          let db := <[i := user]> db in
          let failed_attempts := failed_login_attempts user in
          if (LOGIN_ATTEMPTS settings <=? Z.of_nat failed_attempts)%Z
          then (exceeded_attempts_response, db, mails)
          else (invalid_credentials_response, db, mails)
      | None => (invalid_credentials_response, db, [])
      end
  | Some (i, user) =>
      CustomTokenCreateView_action db i user now_gate now_otp draws
  end.

(** [post] with the writes of the failure branch: there
    [handle_failed_login_attempts] is called inside the handler of the
    validation error, so when its [save] raises the request ends with that
    exception, the table is as before and nothing is mailed.  On a row whose
    counter is below the largest value of its column this is [post] above. *)
Definition CustomTokenCreateView_post_saved (db : list User)
    (request : LoginData) (now_fail now_gate now_otp : Time)
    (draws : nat -> nat) : result Response * list User * list Mail :=
  match first_row (fun u => credentials_ok u request) db with
  | None =>
      match first_row
              (fun u => bool_decide (Some (email u) = data_email request))
              db with
      | Some (i, user) =>
          match handle_failed_login_attempts_saved settings user now_fail with
          | Raise e => (Raise e, db, [])
          | Ok (user, mails) =>
              let db := <[i := user]> db in
              let failed_attempts := failed_login_attempts user in
              if (LOGIN_ATTEMPTS settings <=? Z.of_nat failed_attempts)%Z
              then (Ok exceeded_attempts_response, db, mails)
              else (Ok invalid_credentials_response, db, mails)
          end
      | None => (Ok invalid_credentials_response, db, [])
      end
  | Some (i, user) =>
      let '(response, db, mails) :=
        CustomTokenCreateView_action db i user now_gate now_otp draws in
      (Ok response, db, mails)
  end.

(** *** [OTPVerifyView] *)

Definition otp_required_response : Response :=
  respond [("error", Str "OTP is required")] HTTP_400_BAD_REQUEST.

Definition invalid_otp_response : Response :=
  respond [("error", Str "Invalid or expired OTP")] HTTP_400_BAD_REQUEST.

Definition otp_locked_response : Response :=
  respond
    [("error",
      Str ("Account is locked due to multiple failed login attempts. "
           +:+ "Please try again after "
           +:+ str_minutes (LOCKOUT_DURATION settings)
           +:+ " minutes "))]
    HTTP_403_FORBIDDEN.

Definition login_successful_response : Response :=
  respond
    [("success",
      Str ("Login successful. Now add your profile information, "
           +:+ "so that we can create an account for you"))]
    HTTP_200_OK.

(** The lookups [otp=otp, otp_expiry_time__gt=now]; a null expiry
    satisfies no comparison. *)
Definition otp_lookup (otp_ : string) (now : Time) (u : User) : bool :=
  String.eqb (otp u) otp_
  && match otp_expiry_time u with
     | Some expiry => (now <? expiry)%Z
     | None => false
     end.

(** [request.data.get("otp")]: [None] when the entry is missing or null,
    a string, or another value of the body (a number, a boolean, a list, an
    object).  Of a value that is not a string the view uses the truth value
    and the lookup uses [str] of it. *)
Inductive Submitted : Type :=
| Absent
| Text (s : string)
| NonText (truth : bool) (str_ : string).

(** [not otp] *)
Definition falsy (otp_ : Submitted) : bool :=
  match otp_ with
  | Absent => true
  | Text EmptyString => true
  | Text _ => false
  | NonText truth _ => negb truth
  end.

(** The string that the lookup [otp=otp] compares with the column. *)
Definition as_text (otp_ : Submitted) : string :=
  match otp_ with
  | Absent => EmptyString
  | Text s => s
  | NonText _ str_ => str_
  end.

(** [user.verify_otp(otp)] on the submitted value: [self.otp == otp] is
    false for a value that is not a string, and the method then returns
    [False] without a write. *)
Definition verify_otp_submitted (user : User) (otp_ : Submitted) (now : Time)
    : result (bool * User) :=
  match otp_ with
  | Text code => verify_otp user code now
  | Absent | NonText _ _ => Ok (false, user)
  end.

(** [post(request)] with [request.data.get("otp")] the argument [otp_].
    The value of [verify_otp] is not inspected by the view. *)
Definition OTPVerifyView_post (db : list User) (otp_ : Submitted)
    (now_lookup now_gate now_verify now_token : Time)
    (jti_refresh jti_access : nat) : result Response * list User :=
  if falsy otp_ then (Ok otp_required_response, db)
  else
    match first_row (otp_lookup (as_text otp_) now_lookup) db with
    | None => (Ok invalid_otp_response, db)
    | Some (i, user) =>
        let '(locked, user) := is_locked_out settings user now_gate in
        if locked then (Ok otp_locked_response, db)
        else
          let db := <[i := user]> db in
          match verify_otp_submitted user otp_ now_verify with
          | Raise e => (Raise e, db)
          | Ok (_, user) =>
              let db := <[i := user]> db in
              let '(refresh_, access_) :=
                for_user SIMPLE_JWT (user_id user) now_token
                  jti_refresh jti_access in
              (Ok (set_auth_cookies SIMPLE_JWT
                     login_successful_response
                     (Jwt access_) (Some (Jwt refresh_))),
               db)
          end
    end.

(** *** [CustomTokenRefreshView] *)

(** [TokenRefreshView.post] of the library, the [super().post] of the
    view below, under the flags [cfg]: a body without a refresh token or
    with a blank one is a validation error, a token that does not verify
    is answered with [InvalidToken] and the reason, and a token that
    verifies yields a new access token and, when [ROTATE_REFRESH_TOKENS] is
    on, a new refresh token; the presented token is blacklisted only when
    [BLACKLIST_AFTER_ROTATION] is on and the blacklist app is installed.
    [blacklist] is the table of that app.  The body of a validation error
    has, for the field, the list of its messages; it is written here as the
    one message it holds. *)
Definition TokenRefreshView_post (cfg : Config) (blacklist : gset nat)
    (body : gmap string Value) (now : Time) (jti_access jti_refresh : nat)
    : Response * gset nat :=
  match body !! "refresh" with
  | None =>
      (respond [("refresh", Str "This field is required.")]
         HTTP_400_BAD_REQUEST,
       blacklist)
  | Some raw =>
      if blank raw then
        (respond [("refresh", Str "This field may not be blank.")]
           HTTP_400_BAD_REQUEST,
         blacklist)
      else
      match verify_refresh cfg blacklist now raw with
      | inl e =>
          (respond
             [("detail", Str (detail e));
              ("code", Str "token_not_valid")]
             HTTP_401_UNAUTHORIZED,
           blacklist)
      | inr p =>
          let access_ :=
            {| token_type := access; user_id_claim := user_id_claim p;
               jti := jti_access;
               exp := (now + ACCESS_TOKEN_LIFETIME cfg)%Z |} in
          if ROTATE_REFRESH_TOKENS cfg then
            let blacklist :=
              if BLACKLIST_AFTER_ROTATION cfg
                 && token_blacklist_installed cfg
              then {[jti p]} ∪ blacklist
              else blacklist in
            let refresh_ :=
              {| token_type := refresh; user_id_claim := user_id_claim p;
                 jti := jti_refresh;
                 exp := (now + REFRESH_TOKEN_LIFETIME cfg)%Z |} in
            (respond [("access", Jwt access_); ("refresh", Jwt refresh_)]
               HTTP_200_OK,
             blacklist)
          else (respond [("access", Jwt access_)] HTTP_200_OK, blacklist)
      end
  end.

(** [post(request)] on a request whose body can be assigned to (a JSON
    body, or no body at all). *)
Definition CustomTokenRefreshView_post (cfg : Config)
    (blacklist : gset nat) (request : Request) (now : Time)
    (jti_access jti_refresh : nat) : Response * gset nat :=
  let refresh_token := COOKIES request !! "refresh" in
  let body :=
    match refresh_token with
    | Some r =>
        if truthy refresh_token
        then <["refresh" := r]> (request_data request)
        else request_data request
    | None => request_data request
    end in
  let '(refresh_response, blacklist) :=
    TokenRefreshView_post cfg blacklist body now jti_access jti_refresh in
  if status_code refresh_response =? HTTP_200_OK then
    let access_token := data refresh_response !! "access" in
    let refresh_token := data refresh_response !! "refresh" in
    match access_token with
    | Some a =>
        if truthy access_token && truthy refresh_token then
          let refresh_response :=
            set_auth_cookies cfg refresh_response a refresh_token in
          (set_data refresh_response
             (<["message" := Str "Access tokens refreshed successfully."]>
                (delete "refresh"
                   (delete "access" (data refresh_response)))),
           blacklist)
        else
          (set_data refresh_response
             (<["message" :=
                  Str ("Access or refresh token not found in "
                       +:+ "refresh response data")]>
                (data refresh_response)),
           blacklist)
    | None =>
        (set_data refresh_response
           (<["message" :=
                Str ("Access or refresh token not found in "
                     +:+ "refresh response data")]>
              (data refresh_response)),
         blacklist)
    end
  else (refresh_response, blacklist).

(** [request.data] is a dict for a JSON body and an immutable [QueryDict]
    for a form-encoded one, and the assignment
    [request.data["refresh"] = refresh_token], made for a cookie that is not
    empty, raises [AttributeError] on the latter.  [mutable] says which of
    the two the request has; the view above is the view on a JSON body. *)
Definition CustomTokenRefreshView_post_on (mutable : bool) (cfg : Config)
    (blacklist : gset nat) (request : Request) (now : Time)
    (jti_access jti_refresh : nat) : result Response * gset nat :=
  if truthy (COOKIES request !! "refresh") && negb mutable
  then (Raise AttributeError, blacklist)
  else
    let '(response, blacklist) :=
      CustomTokenRefreshView_post cfg blacklist request now
        jti_access jti_refresh in
    (Ok response, blacklist).

End WithSettings.

End Views.

(** ** Invariants of one identity *)

Import Models SimpleJWT Views.

(** An active identity has fewer failures on record than the threshold. *)
Definition lockout_consistent (settings : Settings) (u : User) : Prop :=
  account_status u = ACTIVE ->
  (Z.of_nat (failed_login_attempts u) < LOGIN_ATTEMPTS settings)%Z.

(** The code and its expiry are both present or both absent. *)
Definition otp_paired (u : User) : Prop :=
  otp u = EmptyString <-> otp_expiry_time u = None.

(** The identity as the model's defaults create it. *)
Definition registered (uid : nat) (email_ password_ : string) : User :=
  {| user_id := uid; email := email_; password := password_;
     account_status := ACTIVE; failed_login_attempts := 0;
     last_failed_login := None; otp := EmptyString;
     otp_expiry_time := None |}.

(** ** Concrete policy and identities for the examples *)

Module Fixtures.

Definition policy : Settings :=
  {| LOGIN_ATTEMPTS := 5;
     LOCKOUT_DURATION := minutes 30;
     OTP_EXPIRATION := minutes 5;
     COOKIE_SECURE := true |}.

Definition alice : User := registered 1 "alice@example.com" "pbkdf2$a".
Definition bob : User := registered 2 "bob@example.com" "pbkdf2$b".

(** A password check that compares the stored string with the submitted
    one, for the identity of the submitted email. *)
Definition check_password (u : User) (d : LoginData) : bool :=
  bool_decide (data_email d = Some (email u))
  && bool_decide (data_password d = Some (password u)).

Definition show (d : Timedelta) : string := "30.0".
Definition show_0f (d : Timedelta) : string := "30".

(** The random source that yields 1, 2, 3, ... *)
Definition counting (k : nat) : nat := S k.

(** Alice after five failures, the last at instant 0, holding a code that
    expires five minutes after instant 0. *)
Definition alice_locked : User :=
  assign_otp (assign_lockout alice LOCKED 5 (Some 0%Z)) "123456"
    (Some (minutes 5)).

(** Alice and Bob each holding the same code, both unexpired. *)
Definition alice_pending : User :=
  assign_otp alice "123456" (Some (minutes 5)).
Definition bob_pending : User :=
  assign_otp bob "123456" (Some (minutes 5)).

(** A refresh token of the server for Alice, and the request whose cookie
    presents it. *)
Definition alice_refresh : Payload :=
  {| token_type := refresh; user_id_claim := 1; jti := 7;
     exp := days 1 |}.
Definition refresh_request : Request :=
  {| COOKIES := {["refresh" := Jwt alice_refresh]}; request_data := ∅ |}.

(** The flags of base.py with the blacklist app installed and
    [BLACKLIST_AFTER_ROTATION] on. *)
Definition with_blacklist : Config :=
  {| ACCESS_TOKEN_LIFETIME := ACCESS_TOKEN_LIFETIME SIMPLE_JWT;
     REFRESH_TOKEN_LIFETIME := REFRESH_TOKEN_LIFETIME SIMPLE_JWT;
     ROTATE_REFRESH_TOKENS := true;
     BLACKLIST_AFTER_ROTATION := true;
     token_blacklist_installed := true |}.

End Fixtures.

(** ** Further invariants and scenarios of one identity *)

(** A locked identity has at least the threshold of failures on record and
    an instant of last failure. *)
Definition lockout_sound (settings : Settings) (u : User) : Prop :=
  account_status u = LOCKED ->
  (LOGIN_ATTEMPTS settings <= Z.of_nat (failed_login_attempts u))%Z
  /\ last_failed_login u <> None.

(** Consecutive failed logins, one at each instant of the list. *)
Definition failures (instants : list Time) : list (Call * Time) :=
  map (fun t => (CallHandleFailedLoginAttempts, t)) instants.

(** [str.isdigit] on an ASCII character. *)
Definition isdigit (c : Ascii.ascii) : bool :=
  (48 <=? Ascii.nat_of_ascii c) && (Ascii.nat_of_ascii c <=? 57).

(** ** Rows across an endpoint *)

(** Two records of the same account: the identifier, the email and the
    password are equal. *)
Definition same_account (u v : User) : Prop :=
  user_id u = user_id v /\ email u = email v /\ password u = password v.

(** The table after an endpoint is the table before, or the table before
    with one row replaced by what a sequence of calls of the model makes of
    it, every stored code being non-empty. *)
Definition row_step (settings : Settings) (db db' : list User) : Prop :=
  db' = db
  \/ exists (i : nat) (u u' : User) (calls : list (Call * Time)),
       db !! i = Some u
       /\ run settings calls u = Ok u'
       /\ Forall (fun ct => forall o, fst ct = CallSetOtp o -> o <> EmptyString)
            calls
       /\ db' = <[i := u']> db.

(** ** views.py: [LogoutAPIView] *)

Module Logout.

Import SimpleJWT Views.

Definition HTTP_204_NO_CONTENT : nat := 204.

(** [response.delete_cookie(key)] of Django's [HttpResponse] with the
    default path and no same-site value: the cookie is set with the empty
    value and [max_age=0]; it is marked secure only for the key prefixes
    [__Secure-] and [__Host-]. *)
Definition delete_cookie (response : Response) (key : string) : Response :=
  set_cookie response key
    {| value := Str EmptyString;
       path := "/";
       secure := String.prefix "__Secure-" key || String.prefix "__Host-" key;
       httponly := false;
       samesite := EmptyString;
       max_age := 0%Z |}.

(** [post]: the response does not depend on the request; the view logs
    the email of [request.user] after the cookies are deleted. *)
Definition LogoutAPIView_post : Response :=
  let response := respond [] HTTP_204_NO_CONTENT in
  let response := delete_cookie response "access" in
  let response := delete_cookie response "refresh" in
  delete_cookie response "logged_in".

End Logout.

(** The refresh token that [CustomTokenRefreshView.post] hands to its
    parent: the cookie when it is present and not empty, the entry of the
    body otherwise. *)
Definition presented_refresh_token (request : Request) : option Value :=
  if truthy (COOKIES request !! "refresh")
  then COOKIES request !! "refresh"
  else request_data request !! "refresh".

(** ** models.py: [User.full_name] *)

Module Names.

(** The property [full_name], as a function of the two attributes it
    reads. *)
Definition full_name (first_name last_name : string) : string :=
  let full_name := first_name +:+ " " +:+ last_name in
  string_of_list_ascii
    (Text.strip (Text.title (list_ascii_of_string full_name))).

End Names.

(** ** managers.py *)

Module Managers.

Inductive error : Type :=
| AttributeError
| ValueError (message : string)
| ValidationError (message : string)
| TypeError.

(** A keyword value. *)
Inductive PyVal : Type :=
| PNone
| PBool (b : bool)
| PInt (n : Z)
| PStr (s : string).

(** [string.ascii_uppercase + string.digits] *)
Definition alphabet : string := "ABCDEFGHIJKLMNOPQRSTUVWXYZ0123456789".

(** One element of [random.choices(population, k=...)]:
    [population[floor(random() * n)]], the index drawn being [draw]. *)
Definition pick (draw : nat) (population : string) : Ascii.ascii :=
  match String.get (draw mod String.length population) population with
  | Some c => c
  | None => Ascii.zero
  end.

(** [d.setdefault(key, value)] *)
Definition setdefault (key : string) (v : PyVal) (d : gmap string PyVal)
    : gmap string PyVal :=
  match d !! key with
  | Some _ => d
  | None => <[key := v]> d
  end.

(** [v is not True] *)
Definition is_not_True (v : option PyVal) : bool :=
  match v with
  | Some (PBool true) => false
  | _ => true
  end.

Section Manager.

(** [getenv("BANK_NAME")] *)
Variable BANK_NAME : option string.

(** Django's [normalize_email], [validate_email] (true when it does not
    raise) and [make_password], and the keyword names that the constructor
    of the model accepts. *)
Variable normalize_email : string -> string.
Variable validate_email : string -> bool.
Variable make_password : string -> string.
Variable accepts : string -> bool.

(** [generate_username()]; [draws k] is the k-th index drawn.  A negative
    [remaining_length] gives no random character. *)
Definition generate_username (draws : nat -> nat) : error + string :=
  match BANK_NAME with
  | None => inl AttributeError
  | Some name =>
      let bank_name :=
        Text.strip
          (Text.replace Text.underscore Text.space
             (Text.replace Text.hyphen Text.space
                (Text.replace Text.dot Text.space
                   (list_ascii_of_string name)))) in
      let words := Text.split bank_name in
      let prefix :=
        concat (map (fun word =>
                       match word with
                       | c :: _ => [Text.upper c]
                       | [] => []
                       end) words) in
      let remaining_length := (12 - Z.of_nat (length prefix) - 1)%Z in
      let random_chars :=
        map (fun k => pick (draws k) alphabet)
          (seq 0 (Z.to_nat remaining_length)) in
      inr (string_of_list_ascii (prefix ++ [Text.hyphen] ++ random_chars))
  end.

Definition validate_email_address (email_ : string) : error + unit :=
  if validate_email email_ then inr tt
  else inl (ValidationError "Enter a valid email address").

(** [self.model(username=..., email=..., **extra_fields)]: a keyword given
    twice or a keyword that the model does not accept is a [TypeError];
    otherwise the instance has the attributes given. *)
Definition model (username email_ : string)
    (extra_fields : gmap string PyVal) : error + gmap string PyVal :=
  if bool_decide (is_Some (extra_fields !! "username"))
     || bool_decide (is_Some (extra_fields !! "email"))
  then inl TypeError
  else if bool_decide (map_Forall (fun k _ => accepts k = true) extra_fields)
  then inr (<["username" := PStr username]>
              (<["email" := PStr email_]> extra_fields))
  else inl TypeError.

(** [_create_user]: the result is the instance handed to [save]. *)
Definition _create_user (email_ password_ : option string)
    (extra_fields : gmap string PyVal) (draws : nat -> nat)
    : error + gmap string PyVal :=
  match email_ with
  | None | Some EmptyString =>
      inl (ValueError "An email address must be provided.")
  | Some email_ =>
      match password_ with
      | None | Some EmptyString =>
          inl (ValueError "Password must be provided.")
      | Some password_ =>
          match generate_username draws with
          | inl e => inl e
          | inr username =>
              let email_ := normalize_email email_ in
              match validate_email_address email_ with
              | inl e => inl e
              | inr _ =>
                  match model username email_ extra_fields with
                  | inl e => inl e
                  | inr user =>
                      inr (<["password" := PStr (make_password password_)]>
                             user)
                  end
              end
          end
      end
  end.

Definition create_user (email_ password_ : option string)
    (extra_fields : gmap string PyVal) (draws : nat -> nat)
    : error + gmap string PyVal :=
  let extra_fields := setdefault "is_superuser" (PBool false) extra_fields in
  let extra_fields := setdefault "is_staff" (PBool false) extra_fields in
  _create_user email_ password_ extra_fields draws.

Definition create_superuser (email_ password_ : option string)
    (extra_fields : gmap string PyVal) (draws : nat -> nat)
    : error + gmap string PyVal :=
  let extra_fields := setdefault "is_superuser" (PBool true) extra_fields in
  let extra_fields := setdefault "is_staff" (PBool true) extra_fields in
  if is_not_True (extra_fields !! "is_staff")
  then inl (ValueError "Superuser must have is_staff=True.")
  else if is_not_True (extra_fields !! "is_superuser")
  then inl (ValueError "Superuser must have is_superuser=True.")
  else _create_user email_ password_ extra_fields draws.

End Manager.

End Managers.

(** ** forms.py: the uniqueness checks of the email *)

Module Forms.

(** [UserCreationForm.clean_email] *)
Definition UserCreationForm_clean_email (db : list User) (email_ : string)
    : Managers.error + string :=
  if existsb (fun u => bool_decide (email u = email_)) db
  then inl (Managers.ValidationError "A user with that email already exist")
  else inr email_.

(** [UserChangeForm.clean_email], [pk] being [self.instance.pk] *)
Definition UserChangeForm_clean_email (db : list User) (pk : nat)
    (email_ : string) : Managers.error + string :=
  if existsb (fun u => bool_decide (email u = email_))
       (filter (fun u => user_id u <> pk) db)
  then inl (Managers.ValidationError "A user with that email already exists.")
  else inr email_.

(** The row with its email replaced, as the form saves it. *)
Definition with_email (u : User) (email_ : string) : User :=
  {| user_id := user_id u;
     email := email_;
     password := password u;
     account_status := account_status u;
     failed_login_attempts := failed_login_attempts u;
     last_failed_login := last_failed_login u;
     otp := otp u;
     otp_expiry_time := otp_expiry_time u |}.

End Forms.

(** ** Concrete collaborators of the manager for the examples *)

Module ManagerFixtures.

Definition bank_name : option string := Some "First_bank-stream plc".

(** Stand-ins: the email is kept as it is and always valid, the hash is
    the password behind a tag, and every keyword is accepted. *)
Definition keep (s : string) : string := s.
Definition valid (s : string) : bool := true.
Definition tagged (s : string) : string := "hash:" +:+ s.
Definition any_keyword (s : string) : bool := true.

End ManagerFixtures.

(** * Properties *)

Import Fixtures.

(** ** Lockout policy *)

Section Lockout.

Variable settings : Settings.

Lemma handle_failed_login_attempts_fields (self : User) (now : Time) :
  let self' := fst (handle_failed_login_attempts settings self now) in
  failed_login_attempts self' = S (failed_login_attempts self)
  /\ last_failed_login self' = Some now
  /\ otp self' = otp self
  /\ otp_expiry_time self' = otp_expiry_time self
  /\ account_status self' =
       if (LOGIN_ATTEMPTS settings <=? Z.of_nat (S (failed_login_attempts self)))%Z
       then LOCKED else account_status self.
Proof.
  unfold handle_failed_login_attempts.
  destruct (LOGIN_ATTEMPTS settings <=? _)%Z; simpl; auto.
Qed.

Lemma unlock_account_active (self : User) :
  account_status (unlock_account self) = ACTIVE.
Proof.
  unfold unlock_account.
  destruct (account_status self) eqn:E; simpl; auto.
Qed.

Lemma is_locked_out_false_active (self : User) (now : Time) :
  fst (is_locked_out settings self now) = false ->
  account_status (snd (is_locked_out settings self now)) = ACTIVE.
Proof.
  unfold is_locked_out.
  destruct (account_status self) eqn:Es; simpl; auto.
  destruct (last_failed_login self); simpl; try discriminate.
  destruct (LOCKOUT_DURATION settings <? now - t)%Z; simpl; try discriminate.
  intros _. apply unlock_account_active.
Qed.

Lemma is_locked_out_true_same (self : User) (now : Time) :
  fst (is_locked_out settings self now) = true ->
  snd (is_locked_out settings self now) = self.
Proof.
  unfold is_locked_out.
  destruct (account_status self); simpl; auto.
  destruct (last_failed_login self); simpl; auto.
  destruct (LOCKOUT_DURATION settings <? now - t)%Z; simpl; auto.
  discriminate.
Qed.

(** Every call of the core keeps [lockout_consistent], for a positive
    threshold. *)
Lemma call_lockout_consistent (c : Call) (now : Time) (self self' : User) :
  (0 < LOGIN_ATTEMPTS settings)%Z ->
  lockout_consistent settings self ->
  call settings c now self = Ok self' ->
  lockout_consistent settings self'.
Proof.
  intros Hpos Hinv Hcall. unfold lockout_consistent in *.
  destruct c; simpl in Hcall.
  - inversion Hcall; subst; simpl. exact Hinv.
  - unfold verify_otp in Hcall.
    destruct (String.eqb (otp self) otp_).
    + destruct (otp_expiry_time self); try discriminate.
      destruct (now <? t)%Z; inversion Hcall; subst; simpl; auto.
    + inversion Hcall; subst; auto.
  - inversion Hcall; subst; clear Hcall.
    unfold handle_failed_login_attempts.
    destruct (LOGIN_ATTEMPTS settings <=? _)%Z eqn:E; simpl.
    + discriminate.
    + intros _. apply Z.leb_gt in E. lia.
  - inversion Hcall; subst; simpl. intros _. lia.
  - inversion Hcall; subst. unfold unlock_account.
    destruct (account_status self) eqn:Es; simpl; auto; intros _; lia.
  - inversion Hcall; subst. unfold is_locked_out.
    destruct (account_status self) eqn:Es; simpl; auto.
    destruct (last_failed_login self); simpl.
    + destruct (LOCKOUT_DURATION settings <? now - t)%Z; simpl.
      * unfold unlock_account. rewrite Es. simpl. intros _. lia.
      * rewrite Es. discriminate.
    + rewrite Es. discriminate.
Qed.

Lemma registered_lockout_consistent (uid : nat) (e p : string) :
  (0 < LOGIN_ATTEMPTS settings)%Z ->
  lockout_consistent settings (registered uid e p).
Proof. intros Hpos _. simpl. lia. Qed.

(** Hence every identity that the calls of the core make out of a newly
    registered one is [lockout_consistent]. *)
Lemma run_lockout_consistent (calls : list (Call * Time))
    (self self' : User) :
  (0 < LOGIN_ATTEMPTS settings)%Z ->
  lockout_consistent settings self ->
  run settings calls self = Ok self' ->
  lockout_consistent settings self'.
Proof.
  intros Hpos. revert self.
  induction calls as [|[c now] rest IH]; intros self Hinv Hrun; simpl in Hrun.
  - inversion Hrun; subst. exact Hinv.
  - destruct (call settings c now self) as [mid|e] eqn:Hcall;
      [|discriminate].
    apply (IH mid); [|exact Hrun].
    eapply call_lockout_consistent; eauto.
Qed.

(** C1 (as amended).  On an identity whose counter is below 32767, the
    largest value of its column, a failed attempt is stored: it adds exactly
    one to the counter and stamps [last_failed_login] with the instant of
    the call; after it the account is locked exactly when the new count is
    at least the threshold or the account was locked before, and below the
    threshold the status is the one before.  For an active identity whose
    count is below the threshold the flip to locked is made by the very call
    whose new count equals the threshold, not one call earlier and not one
    call later; with a positive threshold every active identity that calls
    of the core make out of a newly registered one is such an identity.  On
    an identity whose counter stands at 32767 the call raises [DataError]
    at its first [save] and nothing is stored. *)
Theorem handle_failed_login_attempts_locks_from_threshold
    (self : User) (now : Time) :
  let attempts := Z.of_nat (S (failed_login_attempts self)) in
  ((SMALLINT_MAX < attempts)%Z ->
   handle_failed_login_attempts_saved settings self now = Raise DataError)
  /\ ((attempts <= SMALLINT_MAX)%Z ->
      exists (self' : User) (mails : list Mail),
        handle_failed_login_attempts_saved settings self now
        = Ok (self', mails)
        /\ failed_login_attempts self' = S (failed_login_attempts self)
        /\ last_failed_login self' = Some now
        /\ (account_status self' = LOCKED <->
            (LOGIN_ATTEMPTS settings <= attempts)%Z
            \/ account_status self = LOCKED)
        /\ ((attempts < LOGIN_ATTEMPTS settings)%Z ->
            account_status self' = account_status self)
        /\ (lockout_consistent settings self ->
            account_status self = ACTIVE ->
            (account_status self' = LOCKED <->
             attempts = LOGIN_ATTEMPTS settings))
        /\ (forall (calls : list (Call * Time)) (uid : nat) (e p : string),
              (0 < LOGIN_ATTEMPTS settings)%Z ->
              run settings calls (registered uid e p) = Ok self ->
              account_status self = ACTIVE ->
              (account_status self' = LOCKED <->
               attempts = LOGIN_ATTEMPTS settings))).
Proof.
  intros attempts.
  destruct (handle_failed_login_attempts_fields self now)
    as (Hn & Hl & _ & _ & Hs).
  fold attempts in Hs.
  unfold handle_failed_login_attempts_saved, save.
  rewrite Hn. fold attempts.
  split.
  - intros Hover. apply Z.leb_gt in Hover. rewrite Hover. reflexivity.
  - intros Hfits. apply Z.leb_le in Hfits. rewrite Hfits.
    destruct (handle_failed_login_attempts settings self now)
      as [self' mails] eqn:Hcall.
    simpl in Hn, Hl, Hs.
    assert (Hexact : lockout_consistent settings self ->
                     account_status self = ACTIVE ->
                     (account_status self' = LOCKED <->
                      attempts = LOGIN_ATTEMPTS settings)).
    { intros Hinv Hact. specialize (Hinv Hact). rewrite Hs.
      destruct (Z.leb_spec (LOGIN_ATTEMPTS settings) attempts) as [E | E].
      - split; [intros _; unfold attempts in *; lia | reflexivity].
      - split; [congruence | lia]. }
    exists self', mails.
    split; [reflexivity|]. split; [exact Hn|]. split; [exact Hl|].
    split; [|split; [|split; [exact Hexact|]]].
    + rewrite Hs.
      destruct (Z.leb_spec (LOGIN_ATTEMPTS settings) attempts) as [E | E].
      * split; auto.
      * split; [auto | intros [Hle | Hlocked]; [lia | exact Hlocked]].
    + intros Hlt. rewrite Hs.
      destruct (Z.leb_spec (LOGIN_ATTEMPTS settings) attempts) as [E | E];
        [lia | reflexivity].
    + intros calls uid e p Hpos Hrun. apply Hexact.
      eapply run_lockout_consistent; eauto.
      apply registered_lockout_consistent. exact Hpos.
Qed.

(** C2.  On a locked identity with a recorded last failure the read is
    true while no more than the lockout duration has elapsed and the
    record is left as it is; strictly after, the record becomes active
    with a zero counter and no last failure, and the read is false.  On
    an active identity the read is false and the record is left as it
    is. *)
Theorem is_locked_out_expires_lazily (self : User) (now : Time) :
  (account_status self = ACTIVE ->
   is_locked_out settings self now = (false, self))
  /\ (forall last : Time,
        account_status self = LOCKED ->
        last_failed_login self = Some last ->
        ((now - last <= LOCKOUT_DURATION settings)%Z ->
         is_locked_out settings self now = (true, self))
        /\ ((LOCKOUT_DURATION settings < now - last)%Z ->
            is_locked_out settings self now
            = (false, assign_lockout self ACTIVE 0 None))).
Proof.
  unfold is_locked_out. split.
  - intros Hs. rewrite Hs. reflexivity.
  - intros last Hs Hl. rewrite Hs, Hl. split; intros H.
    + apply Z.ltb_ge in H. rewrite H. reflexivity.
    + apply Z.ltb_lt in H. rewrite H. unfold unlock_account.
      rewrite Hs. reflexivity.
Qed.


End Lockout.

(** ** One-time passcode *)

Lemma generate_otp_length (draws : nat -> nat) (n : nat) :
  String.length (Utils.generate_otp draws n) = n.
Proof.
  unfold Utils.generate_otp.
  assert (H : forall l : list Ascii.ascii,
             String.length (string_of_list_ascii l) = length l).
  { induction l as [|c l IH]; simpl; auto. }
  rewrite H, length_map, length_seq. reflexivity.
Qed.

Lemma generate_otp_nonempty (draws : nat -> nat) :
  Utils.generate_otp draws 6 <> EmptyString.
Proof.
  intros H. pose proof (generate_otp_length draws 6) as Hl.
  rewrite H in Hl. discriminate.
Qed.

Section Otp.

Variable settings : Settings.

Lemma eqb_empty_false (s : string) :
  s <> EmptyString -> String.eqb EmptyString s = false.
Proof. intros Hs. apply String.eqb_neq. congruence. Qed.

(** C4 (the behaviour of the code).  On an identity whose OTP is cleared,
    [verify_otp] answers [False] and leaves the record as it is for every
    non-empty submission, and raises [TypeError] for the empty one: the
    codes compare equal and the absent expiry is then compared with the
    clock. *)
Theorem verify_otp_cleared (self : User) (now : Time) :
  otp self = EmptyString ->
  otp_expiry_time self = None ->
  verify_otp self EmptyString now = Raise TypeError
  /\ (forall s : string,
        s <> EmptyString -> verify_otp self s now = Ok (false, self)).
Proof.
  intros Ho He. unfold verify_otp. rewrite Ho, He. split.
  - reflexivity.
  - intros s Hs. rewrite (eqb_empty_false s Hs). reflexivity.
Qed.

Lemma call_otp_fields (c : Call) (now : Time) (self self' : User) :
  call settings c now self = Ok self' ->
  (otp self' = otp self /\ otp_expiry_time self' = otp_expiry_time self)
  \/ (exists o, c = CallSetOtp o /\ otp self' = o
                /\ otp_expiry_time self'
                   = Some (now + OTP_EXPIRATION settings)%Z)
  \/ (exists o, c = CallVerifyOtp o /\ otp self' = EmptyString
                /\ otp_expiry_time self' = None).
Proof.
  intros Hcall. destruct c; simpl in Hcall.
  - inversion Hcall; subst. right; left. exists otp_. simpl. auto.
  - unfold verify_otp in Hcall.
    destruct (String.eqb (otp self) otp_).
    + destruct (otp_expiry_time self) eqn:He; try discriminate.
      destruct (now <? t)%Z; inversion Hcall; subst.
      * right; right. exists otp_. simpl. auto.
      * left. auto.
    + inversion Hcall; subst. left. auto.
  - inversion Hcall; subst. left.
    destruct (handle_failed_login_attempts_fields settings self now)
      as (_ & _ & Ho & He & _). auto.
  - inversion Hcall; subst. left. simpl. auto.
  - inversion Hcall; subst. left. unfold unlock_account.
    destruct (account_status self); simpl; auto.
  - inversion Hcall; subst. left. unfold is_locked_out, unlock_account.
    destruct (account_status self); simpl; auto.
    destruct (last_failed_login self); simpl; auto.
    destruct (LOCKOUT_DURATION settings <? now - t)%Z; simpl; auto.
Qed.

Lemma call_otp_paired (c : Call) (now : Time) (self self' : User) :
  (forall o, c = CallSetOtp o -> o <> EmptyString) ->
  otp_paired self ->
  call settings c now self = Ok self' ->
  otp_paired self'.
Proof.
  intros Hne Hinv Hcall. unfold otp_paired in *.
  destruct (call_otp_fields c now self self' Hcall)
    as [[Ho He] | [(o & Hc & Ho & He) | (o & Hc & Ho & He)]].
  - rewrite Ho, He. exact Hinv.
  - rewrite Ho, He. specialize (Hne o Hc). split; [tauto | discriminate].
  - rewrite Ho, He. tauto.
Qed.

(** C5.  [set_otp] writes the code and the expiry [now + OTP_EXPIRATION]
    in one step and touches nothing else; once a code is stored, every
    different code fails to verify and leaves the stored code in place;
    and every call of the core either leaves both OTP fields as they were
    or writes both, the code with its expiry or the empty code with no
    expiry, so an identity whose code and expiry are both present or both
    absent stays so under every call that stores a non-empty code, as the
    codes of [generate_otp] are. *)
Theorem otp_fields_written_together :
  (forall (self : User) (c : string) (now : Time),
      set_otp settings self c now
      = assign_otp self c (Some (now + OTP_EXPIRATION settings)%Z))
  /\ (forall (self : User) (c1 c2 : string) (issued now : Time),
        c1 <> c2 ->
        verify_otp (set_otp settings self c2 issued) c1 now
        = Ok (false, set_otp settings self c2 issued))
  /\ (forall (c : Call) (now : Time) (self self' : User),
        call settings c now self = Ok self' ->
        (otp self' = otp self
         /\ otp_expiry_time self' = otp_expiry_time self)
        \/ (exists o, c = CallSetOtp o /\ otp self' = o
                      /\ otp_expiry_time self'
                         = Some (now + OTP_EXPIRATION settings)%Z)
        \/ (exists o, c = CallVerifyOtp o /\ otp self' = EmptyString
                      /\ otp_expiry_time self' = None))
  /\ (forall (c : Call) (now : Time) (self self' : User),
        (forall o, c = CallSetOtp o -> o <> EmptyString) ->
        otp_paired self ->
        call settings c now self = Ok self' ->
        otp_paired self')
  /\ (forall draws : nat -> nat,
        Utils.generate_otp draws 6 <> EmptyString).
Proof.
  split; [reflexivity|]. split; [|split; [|split]].
  - intros self c1 c2 issued now Hne. unfold verify_otp. simpl.
    assert (E : String.eqb c2 c1 = false)
      by (apply String.eqb_neq; congruence).
    rewrite E. reflexivity.
  - intros c now self self'. apply call_otp_fields.
  - intros c now self self'. apply call_otp_paired.
  - apply generate_otp_nonempty.
Qed.

End Otp.

(** ** Login state machine *)

Section Login.

Variable settings : Settings.
Variable credentials_ok : User -> LoginData -> bool.
Variable str_minutes str_minutes_0f : Timedelta -> string.

Local Abbreviation post :=
  (CustomTokenCreateView_post settings credentials_ok
     str_minutes str_minutes_0f).

Lemma first_row_Some (lookups : User -> bool) (db : list User)
    (i : nat) (u : User) :
  first_row lookups db = Some (i, u) ->
  db !! i = Some u /\ lookups u = true /\ i < length db.
Proof.
  unfold first_row. intros H. apply list_find_Some in H.
  destruct H as (Hi & Hp & _). repeat split; auto.
  eapply lookup_lt_Some; eauto.
Qed.

Lemma reset_after_gate (user : User) (now : Time) :
  reset_failed_login_attempts (snd (is_locked_out settings user now))
  = assign_lockout user ACTIVE 0 None.
Proof.
  unfold is_locked_out, unlock_account, reset_failed_login_attempts.
  destruct user as [uid e p s n l o x]; simpl.
  destruct s; simpl; auto.
  destruct l; simpl; auto.
  destruct (LOCKOUT_DURATION settings <? now - t)%Z; simpl; auto.
Qed.


(** C7.  When the submitted data authenticate the stored identity at row
    [i] and the lockout gate reads false, the endpoint writes back the
    identity with a zero failure count, no last failure, the active status,
    the generated code and the expiry [now + OTP_EXPIRATION]; it hands the
    code to the mailer; and it answers 200 with the pending-verification
    body, which carries no token, and with no cookie. *)
Theorem login_success_issues_otp
    (db : list User) (request : LoginData) (i : nat) (user : User)
    (now_fail now_gate now_otp : Time) (draws : nat -> nat) :
  first_row (fun u => credentials_ok u request) db = Some (i, user) ->
  fst (is_locked_out settings user now_gate) = false ->
  let code := Utils.generate_otp draws 6 in
  let user' :=
    assign_otp (assign_lockout user ACTIVE 0 None) code
      (Some (now_otp + OTP_EXPIRATION settings)%Z) in
  post db request now_fail now_gate now_otp draws
  = (otp_sent_response user', <[i := user']> db,
     [OtpMail (email user) code (OTP_EXPIRATION settings)])
  /\ <[i := user']> db !! i = Some user'
  /\ failed_login_attempts user' = 0
  /\ last_failed_login user' = None
  /\ account_status user' = ACTIVE
  /\ otp user' = code
  /\ String.length code = 6
  /\ otp_expiry_time user' = Some (now_otp + OTP_EXPIRATION settings)%Z
  /\ status_code (otp_sent_response user') = 200
  /\ cookies (otp_sent_response user') = ∅
  /\ (forall (k : string) (p : Payload),
        data (otp_sent_response user') !! k <> Some (Jwt p)).
Proof.
  intros Hrow Hgate code user'.
  destruct (first_row_Some _ _ _ _ Hrow) as (Hi & _ & Hlen).
  split.
  - unfold CustomTokenCreateView_post. rewrite Hrow.
    unfold CustomTokenCreateView_action.
    pose proof (reset_after_gate user now_gate) as Hreset.
    destruct (is_locked_out settings user now_gate) as [locked user1].
    simpl in Hgate, Hreset. subst locked. rewrite Hreset. reflexivity.
  - split; [apply list_lookup_insert_eq; exact Hlen|].
    repeat (split; [reflexivity|]).
    intros k p. unfold otp_sent_response, respond. simpl.
    destruct (decide (k = "success")) as [->|Hk1].
    { rewrite lookup_insert_eq. discriminate. }
    rewrite lookup_insert_ne by congruence.
    destruct (decide (k = "email")) as [->|Hk2].
    { rewrite lookup_insert_eq. discriminate. }
    rewrite lookup_insert_ne by congruence.
    rewrite lookup_empty. discriminate.
Qed.

(** C8.  When the submitted data authenticate a stored identity and the
    lockout gate reads true, the endpoint answers 403 with the locked body
    and no cookie, the table is the one before, and nothing is handed to
    the mailer: the counter, the last failure and the OTP fields of the
    identity are as they were. *)
Theorem login_locked_gate_frame
    (db : list User) (request : LoginData) (i : nat) (user : User)
    (now_fail now_gate now_otp : Time) (draws : nat -> nat) :
  first_row (fun u => credentials_ok u request) db = Some (i, user) ->
  fst (is_locked_out settings user now_gate) = true ->
  post db request now_fail now_gate now_otp draws
  = (locked_response settings str_minutes, db, [])
  /\ status_code (locked_response settings str_minutes) = 403
  /\ cookies (locked_response settings str_minutes) = ∅
  /\ db !! i = Some user
  /\ snd (is_locked_out settings user now_gate) = user.
Proof.
  intros Hrow Hgate.
  destruct (first_row_Some _ _ _ _ Hrow) as (Hi & _ & _).
  split.
  - unfold CustomTokenCreateView_post. rewrite Hrow.
    unfold CustomTokenCreateView_action.
    destruct (is_locked_out settings user now_gate) as [locked user1].
    simpl in Hgate. subst locked. reflexivity.
  - repeat split; auto. apply is_locked_out_true_same. exact Hgate.
Qed.

End Login.

(** ** OTP verification endpoint *)

Section OtpVerify.

Variable settings : Settings.
Variable str_minutes : Timedelta -> string.

Local Abbreviation post := (OTPVerifyView_post settings str_minutes).

Lemma otp_lookup_true (code : string) (now : Time) (u : User) :
  otp_lookup code now u = true <->
  otp u = code
  /\ exists expiry, otp_expiry_time u = Some expiry /\ (now < expiry)%Z.
Proof.
  unfold otp_lookup. rewrite andb_true_iff, String.eqb_eq.
  destruct (otp_expiry_time u) as [e|].
  - rewrite Z.ltb_lt. split.
    + intros [Ho He]. eauto.
    + intros [Ho (e' & He' & Hlt)]. inversion He'; subst. auto.
  - split.
    + intros [_ H]. discriminate.
    + intros [_ (e' & He' & _)]. discriminate.
Qed.

Lemma gate_keeps_otp (user : User) (now : Time) :
  otp (snd (is_locked_out settings user now)) = otp user
  /\ otp_expiry_time (snd (is_locked_out settings user now))
     = otp_expiry_time user
  /\ user_id (snd (is_locked_out settings user now)) = user_id user.
Proof.
  unfold is_locked_out, unlock_account.
  destruct (account_status user) eqn:Es; simpl; auto.
  destruct (last_failed_login user); simpl; auto.
  destruct (LOCKOUT_DURATION settings <? now - t)%Z; simpl; auto.
Qed.





End OtpVerify.

(** ** Token refresh endpoint *)

Section Refresh.

Variable settings : Settings.

Local Abbreviation post := (CustomTokenRefreshView_post settings).

(** C9 (as amended).  Under the flags of base.py, a refresh that presents
    in its cookie a refresh token of the server, not yet expired, is
    answered 200; the access and refresh cookies carry a pair minted at the
    instant of the call with the identifiers drawn for it, the body keeps
    only the message, and no server-side record of the presented token is
    made.  The new refresh token differs from the presented one whenever its
    identifier does, and the presented token is accepted again by every
    later refresh before its own expiry. *)
Theorem refresh_rotates_and_old_token_stays_valid
    (blacklist : gset nat) (request : Request) (p : Payload)
    (now : Time) (jti_access jti_refresh : nat) :
  COOKIES request !! "refresh" = Some (Jwt p) ->
  token_type p = refresh ->
  (now < exp p)%Z ->
  let new_access :=
    {| token_type := access; user_id_claim := user_id_claim p;
       jti := jti_access; exp := (now + minutes 30)%Z |} in
  let new_refresh :=
    {| token_type := refresh; user_id_claim := user_id_claim p;
       jti := jti_refresh; exp := (now + days 1)%Z |} in
  let out := post SIMPLE_JWT blacklist request now jti_access jti_refresh in
  status_code (fst out) = 200
  /\ value <$> cookies (fst out) !! "access" = Some (Jwt new_access)
  /\ value <$> cookies (fst out) !! "refresh" = Some (Jwt new_refresh)
  /\ data (fst out) !! "message"
     = Some (Str "Access tokens refreshed successfully.")
  /\ data (fst out) !! "access" = None
  /\ data (fst out) !! "refresh" = None
  /\ snd out = blacklist
  /\ (jti_refresh <> jti p -> new_refresh <> p)
  /\ (forall (later : Time) (jti_access' jti_refresh' : nat),
        (later < exp p)%Z ->
        status_code
          (fst (post SIMPLE_JWT (snd out) request later
                  jti_access' jti_refresh'))
        = 200).
Proof.
  intros Hcookie Htype Hlive new_access new_refresh out.
  assert (Hpost : forall t ja jr bl,
    (t < exp p)%Z ->
    post SIMPLE_JWT bl request t ja jr
    = (set_data
         (set_auth_cookies settings SIMPLE_JWT
            (respond
               [("access",
                 Jwt {| token_type := access;
                        user_id_claim := user_id_claim p;
                        jti := ja; exp := (t + minutes 30)%Z |});
                ("refresh",
                 Jwt {| token_type := refresh;
                        user_id_claim := user_id_claim p;
                        jti := jr; exp := (t + days 1)%Z |})]
               HTTP_200_OK)
            (Jwt {| token_type := access;
                    user_id_claim := user_id_claim p;
                    jti := ja; exp := (t + minutes 30)%Z |})
            (Some (Jwt {| token_type := refresh;
                          user_id_claim := user_id_claim p;
                          jti := jr; exp := (t + days 1)%Z |})))
         {["message" := Str "Access tokens refreshed successfully."]},
       bl)).
  { intros t ja jr bl Ht.
    unfold CustomTokenRefreshView_post. rewrite Hcookie. simpl truthy. cbv iota.
    unfold TokenRefreshView_post. rewrite lookup_insert_eq.
    unfold verify_refresh. simpl token_blacklist_installed. simpl andb.
    apply Z.ltb_lt in Ht. rewrite Ht, Htype. simpl.
    reflexivity. }
  unfold out. rewrite (Hpost now jti_access jti_refresh blacklist Hlive).
  simpl.
  repeat (split; [reflexivity|]).
  split.
  - intros Hj Heq. apply Hj. rewrite <- Heq. reflexivity.
  - intros later ja jr Hlater. rewrite (Hpost later ja jr blacklist Hlater).
    reflexivity.
Qed.

End Refresh.

(** ** The properties at the concrete policy *)

(** C1, counterexample.  With the threshold 5, an active identity whose
    counter stands at 5 is flipped to locked by the failure that takes the
    count to 6, and the row is stored so. *)
Lemma handle_failed_login_attempts_locks_at_six :
  let self := assign_lockout alice ACTIVE 5 None in
  let self' := assign_lockout alice LOCKED 6 (Some 1000%Z) in
  LOGIN_ATTEMPTS policy = 5%Z
  /\ account_status self = ACTIVE
  /\ handle_failed_login_attempts_saved policy self 1000%Z
     = Ok (self', [AccountLockedMail "alice@example.com" 30])
  /\ failed_login_attempts self' = 6
  /\ account_status self' = LOCKED.
Proof. repeat split. Qed.

Lemma handle_failed_login_attempts_locks_from_threshold_witness :
  let calls :=
    [(CallHandleFailedLoginAttempts, 1%Z);
     (CallHandleFailedLoginAttempts, 2%Z);
     (CallHandleFailedLoginAttempts, 3%Z);
     (CallHandleFailedLoginAttempts, 4%Z)] in
  let self := assign_lockout alice ACTIVE 4 (Some 4%Z) in
  let full :=
    assign_lockout alice LOCKED (Z.to_nat SMALLINT_MAX) (Some 4%Z) in
  (0 < LOGIN_ATTEMPTS policy)%Z
  /\ run policy calls (registered 1 "alice@example.com" "pbkdf2$a") = Ok self
  /\ lockout_consistent policy self
  /\ account_status self = ACTIVE
  /\ (Z.of_nat (S (failed_login_attempts self)) <= SMALLINT_MAX)%Z
  /\ (SMALLINT_MAX < Z.of_nat (S (failed_login_attempts full)))%Z
  /\ handle_failed_login_attempts_saved policy self 5%Z
     = Ok (assign_lockout alice LOCKED 5 (Some 5%Z),
           [AccountLockedMail "alice@example.com" 30])
  /\ handle_failed_login_attempts_saved policy full 5%Z = Raise DataError.
Proof.
  intros calls self full.
  assert (Hpos : (0 < LOGIN_ATTEMPTS policy)%Z) by (vm_compute; reflexivity).
  assert (Hrun : run policy calls (registered 1 "alice@example.com" "pbkdf2$a")
                 = Ok self) by reflexivity.
  assert (Hinv : lockout_consistent policy self) by (intros _; simpl; lia).
  assert (Hact : account_status self = ACTIVE) by reflexivity.
  assert (Hfits : (Z.of_nat (S (failed_login_attempts self))
                   <= SMALLINT_MAX)%Z) by (vm_compute; discriminate).
  assert (Hover : (SMALLINT_MAX
                   < Z.of_nat (S (failed_login_attempts full)))%Z)
    by (vm_compute; reflexivity).
  repeat (split; [assumption|]).
  split.
  - destruct (handle_failed_login_attempts_locks_from_threshold
                policy self 5%Z) as [_ H].
    destruct (H Hfits) as (self' & mails & Hsaved & _).
    rewrite Hsaved. vm_compute in Hsaved. inversion Hsaved. reflexivity.
  - destruct (handle_failed_login_attempts_locks_from_threshold
                policy full 5%Z) as [H _].
    exact (H Hover).
Defined.

Lemma is_locked_out_expires_lazily_witness :
  let self := assign_lockout alice LOCKED 5 (Some 0%Z) in
  account_status self = LOCKED
  /\ last_failed_login self = Some 0%Z
  /\ is_locked_out policy self (minutes 30) = (true, self)
  /\ is_locked_out policy self (minutes 30 + 1)%Z
     = (false, assign_lockout self ACTIVE 0 None).
Proof.
  intros self.
  assert (Hs : account_status self = LOCKED) by reflexivity.
  assert (Hl : last_failed_login self = Some 0%Z) by reflexivity.
  split; [exact Hs|]. split; [exact Hl|]. split.
  - destruct (is_locked_out_expires_lazily policy self (minutes 30))
      as [_ H].
    destruct (H 0%Z Hs Hl) as [Hwithin _]. apply Hwithin. vm_compute.
    discriminate.
  - destruct (is_locked_out_expires_lazily policy self (minutes 30 + 1)%Z)
      as [_ H].
    destruct (H 0%Z Hs Hl) as [_ Hafter]. apply Hafter. vm_compute.
    reflexivity.
Defined.



Lemma verify_otp_cleared_witness :
  otp alice = EmptyString
  /\ otp_expiry_time alice = None
  /\ verify_otp alice EmptyString 1000%Z = Raise TypeError
  /\ verify_otp alice "123456" 1000%Z = Ok (false, alice).
Proof.
  assert (Ho : otp alice = EmptyString) by reflexivity.
  assert (He : otp_expiry_time alice = None) by reflexivity.
  split; [exact Ho|]. split; [exact He|].
  destruct (verify_otp_cleared alice 1000%Z Ho He) as [Hraise Hfalse].
  split; [exact Hraise|]. apply Hfalse. discriminate.
Defined.

Lemma otp_fields_written_together_witness :
  "123456" <> "654321"
  /\ verify_otp (set_otp policy alice "654321" 0%Z) "123456" 1000%Z
     = Ok (false, set_otp policy alice "654321" 0%Z).
Proof.
  assert (Hne : "123456" <> "654321") by discriminate.
  split; [exact Hne|].
  destruct (otp_fields_written_together policy) as (_ & H & _).
  apply H. exact Hne.
Defined.




Lemma login_success_issues_otp_witness :
  let request := {| data_email := Some "alice@example.com";
                    data_password := Some "pbkdf2$a" |} in
  first_row (fun u => check_password u request) [alice; bob] = Some (0, alice)
  /\ fst (is_locked_out policy alice 1000%Z) = false
  /\ CustomTokenCreateView_post policy check_password show show_0f
       [alice; bob] request 1000%Z 1000%Z 2000%Z counting
     = (otp_sent_response (assign_otp alice "123456"
                             (Some (2000 + minutes 5)%Z)),
        [assign_otp alice "123456" (Some (2000 + minutes 5)%Z); bob],
        [OtpMail "alice@example.com" "123456" (minutes 5)]).
Proof.
  intros request.
  assert (H1 : first_row (fun u => check_password u request) [alice; bob]
               = Some (0, alice)) by reflexivity.
  assert (H2 : fst (is_locked_out policy alice 1000%Z) = false)
    by reflexivity.
  split; [exact H1|]. split; [exact H2|].
  destruct (login_success_issues_otp policy check_password show show_0f
              [alice; bob] request 0 alice 1000%Z 1000%Z 2000%Z counting
              H1 H2) as [H _].
  rewrite H. reflexivity.
Defined.

Lemma login_locked_gate_frame_witness :
  let request := {| data_email := Some "alice@example.com";
                    data_password := Some "pbkdf2$a" |} in
  first_row (fun u => check_password u request) [alice_locked; bob]
  = Some (0, alice_locked)
  /\ fst (is_locked_out policy alice_locked 1000%Z) = true
  /\ CustomTokenCreateView_post policy check_password show show_0f
       [alice_locked; bob] request 1000%Z 1000%Z 2000%Z counting
     = (locked_response policy show, [alice_locked; bob], []).
Proof.
  intros request.
  assert (H1 : first_row (fun u => check_password u request)
                 [alice_locked; bob] = Some (0, alice_locked))
    by reflexivity.
  assert (H2 : fst (is_locked_out policy alice_locked 1000%Z) = true)
    by reflexivity.
  split; [exact H1|]. split; [exact H2|].
  destruct (login_locked_gate_frame policy check_password show show_0f
              [alice_locked; bob] request 0 alice_locked
              1000%Z 1000%Z 2000%Z counting H1 H2) as [H _].
  exact H.
Defined.

(** C9, counterexample.  Under the flags of base.py a refresh succeeds and
    sets a refresh cookie that differs from the presented token, and a
    second refresh that presents the first token again succeeds as well; it
    is not answered 401. *)
Lemma rotated_out_refresh_token_accepted_again :
  let first :=
    CustomTokenRefreshView_post policy SIMPLE_JWT ∅ refresh_request
      1000%Z 21 22 in
  let second :=
    CustomTokenRefreshView_post policy SIMPLE_JWT (snd first) refresh_request
      2000%Z 23 24 in
  status_code (fst first) = 200
  /\ (exists new_refresh,
        value <$> cookies (fst first) !! "refresh" = Some (Jwt new_refresh)
        /\ new_refresh <> alice_refresh)
  /\ status_code (fst second) = 200
  /\ status_code (fst second) <> HTTP_401_UNAUTHORIZED.
Proof.
  intros first second. split; [reflexivity|]. split.
  - eexists. split; [reflexivity|]. discriminate.
  - split; [reflexivity | discriminate].
Qed.

(** With the blacklist app installed and [BLACKLIST_AFTER_ROTATION] on, the
    same replay is answered 401: the outcome above is the one of the flags
    of base.py. *)
Lemma replay_rejected_with_blacklist :
  let first :=
    CustomTokenRefreshView_post policy with_blacklist ∅ refresh_request
      1000%Z 21 22 in
  let second :=
    CustomTokenRefreshView_post policy with_blacklist (snd first)
      refresh_request 2000%Z 23 24 in
  status_code (fst first) = 200
  /\ status_code (fst second) = 401.
Proof. split; reflexivity. Qed.

Lemma refresh_rotates_and_old_token_stays_valid_witness :
  COOKIES refresh_request !! "refresh" = Some (Jwt alice_refresh)
  /\ token_type alice_refresh = refresh
  /\ (1000 < exp alice_refresh)%Z
  /\ (2000 < exp alice_refresh)%Z
  /\ status_code
       (fst (CustomTokenRefreshView_post policy SIMPLE_JWT ∅ refresh_request
               1000%Z 21 22)) = 200
  /\ status_code
       (fst (CustomTokenRefreshView_post policy SIMPLE_JWT
               (snd (CustomTokenRefreshView_post policy SIMPLE_JWT ∅
                       refresh_request 1000%Z 21 22))
               refresh_request 2000%Z 23 24)) = 200.
Proof.
  assert (H1 : COOKIES refresh_request !! "refresh"
               = Some (Jwt alice_refresh)) by reflexivity.
  assert (H2 : token_type alice_refresh = refresh) by reflexivity.
  assert (H3 : (1000 < exp alice_refresh)%Z) by (vm_compute; reflexivity).
  assert (H4 : (2000 < exp alice_refresh)%Z) by (vm_compute; reflexivity).
  repeat (split; [assumption|]).
  destruct (refresh_rotates_and_old_token_stays_valid policy ∅
              refresh_request alice_refresh 1000%Z 21 22 H1 H2 H3)
    as (Hfirst & _ & _ & _ & _ & _ & _ & _ & Hlater).
  split; [exact Hfirst|]. exact (Hlater 2000%Z 23 24 H4).
Defined.

(** * Further properties of the code *)

(** ** The lockout state machine *)

Section LockoutMachine.

Variable settings : Settings.

(** X1.  No call of the core lowers the failure counter except by resetting
    the lockout state as a whole: after a call the counter is at least what
    it was, or it is zero with the account active and no last failure. *)
Theorem failure_counter_grows_or_resets
    (c : Call) (now : Time) (self self' : User) :
  call settings c now self = Ok self' ->
  failed_login_attempts self <= failed_login_attempts self'
  \/ (failed_login_attempts self' = 0
      /\ account_status self' = ACTIVE
      /\ last_failed_login self' = None).
Proof.
  intros Hcall. destruct c; simpl in Hcall.
  - inversion Hcall; subst. left. reflexivity.
  - unfold verify_otp in Hcall.
    destruct (String.eqb (otp self) otp_).
    + destruct (otp_expiry_time self); try discriminate.
      destruct (now <? t)%Z; inversion Hcall; subst; left; reflexivity.
    + inversion Hcall; subst. left. reflexivity.
  - inversion Hcall; subst. left.
    destruct (handle_failed_login_attempts_fields settings self now)
      as (Hn & _). rewrite Hn. lia.
  - inversion Hcall; subst. right. repeat split.
  - inversion Hcall; subst. unfold unlock_account.
    destruct (account_status self); [left; reflexivity | right; repeat split].
  - inversion Hcall; subst. unfold is_locked_out, unlock_account.
    destruct (account_status self); [left; reflexivity|].
    destruct (last_failed_login self); [|left; reflexivity].
    destruct (LOCKOUT_DURATION settings <? now - t)%Z;
      [right; repeat split | left; reflexivity].
Qed.

Lemma call_lockout_sound (c : Call) (now : Time) (self self' : User) :
  lockout_sound settings self ->
  call settings c now self = Ok self' ->
  lockout_sound settings self'.
Proof.
  intros Hinv Hcall. unfold lockout_sound in *.
  destruct c; simpl in Hcall.
  - inversion Hcall; subst. exact Hinv.
  - unfold verify_otp in Hcall.
    destruct (String.eqb (otp self) otp_).
    + destruct (otp_expiry_time self); try discriminate.
      destruct (now <? t)%Z; inversion Hcall; subst; exact Hinv.
    + inversion Hcall; subst. exact Hinv.
  - inversion Hcall; subst. clear Hcall.
    unfold handle_failed_login_attempts.
    destruct (Z.leb_spec (LOGIN_ATTEMPTS settings)
                (Z.of_nat (S (failed_login_attempts self)))) as [E | E];
      simpl.
    + intros _. split; [exact E | discriminate].
    + intros Hs. destruct (Hinv Hs) as [Hle _]. lia.
  - inversion Hcall; subst. simpl. discriminate.
  - inversion Hcall; subst. unfold unlock_account.
    destruct (account_status self) eqn:Es; simpl.
    + rewrite Es. discriminate.
    + discriminate.
  - inversion Hcall; subst. unfold is_locked_out, unlock_account.
    destruct (account_status self) eqn:Es; simpl.
    + rewrite Es. discriminate.
    + destruct (last_failed_login self) eqn:El; simpl.
      * destruct (LOCKOUT_DURATION settings <? now - t)%Z; simpl.
        -- discriminate.
        -- intros _. rewrite El. apply Hinv. reflexivity.
      * intros _. rewrite El. apply Hinv. reflexivity.
Qed.

Lemma run_lockout_sound (calls : list (Call * Time)) (self self' : User) :
  lockout_sound settings self ->
  run settings calls self = Ok self' ->
  lockout_sound settings self'.
Proof.
  revert self.
  induction calls as [|[c now] rest IH]; intros self Hinv Hrun; simpl in Hrun.
  - inversion Hrun; subst. exact Hinv.
  - destruct (call settings c now self) as [mid|e] eqn:Hcall;
      [|discriminate].
    apply (IH mid); [|exact Hrun].
    eapply call_lockout_sound; eauto.
Qed.

(** X2.  With a positive threshold, every identity that calls of the core
    make out of a newly registered one is locked exactly when its failure
    count is at least the threshold, and a locked one has an instant of last
    failure on record. *)
Theorem reachable_locked_iff_threshold
    (calls : list (Call * Time)) (uid : nat) (e p : string) (self : User) :
  (0 < LOGIN_ATTEMPTS settings)%Z ->
  run settings calls (registered uid e p) = Ok self ->
  (account_status self = LOCKED <->
   (LOGIN_ATTEMPTS settings <= Z.of_nat (failed_login_attempts self))%Z)
  /\ (account_status self = LOCKED ->
      exists last, last_failed_login self = Some last).
Proof.
  intros Hpos Hrun.
  assert (Hsound : lockout_sound settings self).
  { eapply run_lockout_sound; [|exact Hrun]. intros Hs. discriminate Hs. }
  assert (Hcons : lockout_consistent settings self).
  { eapply run_lockout_consistent; [exact Hpos| |exact Hrun].
    apply registered_lockout_consistent. exact Hpos. }
  unfold lockout_sound, lockout_consistent in *. split.
  - split.
    + intros Hs. apply Hsound. exact Hs.
    + intros Hle. destruct (account_status self); [|reflexivity].
      specialize (Hcons eq_refl). lia.
  - intros Hs. destruct (Hsound Hs) as [_ Hl].
    destruct (last_failed_login self) as [last|]; [eauto | congruence].
Qed.

(** X3.  A failure that takes the count to the threshold or beyond, and
    that the column of the counter can hold, is stored, sends the
    account-locked mail and starts the lockout window at its own instant,
    whatever the state before: a read is true and writes nothing while no
    more than the lockout duration has elapsed since that failure, and
    strictly after it the read is false and resets the lockout state. *)
Theorem failure_at_threshold_starts_window
    (self : User) (now later : Time) :
  (LOGIN_ATTEMPTS settings <= Z.of_nat (S (failed_login_attempts self)))%Z ->
  (Z.of_nat (S (failed_login_attempts self)) <= SMALLINT_MAX)%Z ->
  let locked :=
    assign_lockout self LOCKED (S (failed_login_attempts self)) (Some now) in
  handle_failed_login_attempts_saved settings self now
  = Ok (locked, [send_account_locked_email settings self])
  /\ ((later - now <= LOCKOUT_DURATION settings)%Z ->
      is_locked_out settings locked later = (true, locked))
  /\ ((LOCKOUT_DURATION settings < later - now)%Z ->
      is_locked_out settings locked later
      = (false, assign_lockout self ACTIVE 0 None)).
Proof.
  intros Hle Hfits locked.
  apply Z.leb_le in Hle. apply Z.leb_le in Hfits.
  split.
  - unfold handle_failed_login_attempts_saved, save,
      handle_failed_login_attempts.
    rewrite Hle. simpl fst. unfold locked.
    change (failed_login_attempts
              (assign_lockout self LOCKED (S (failed_login_attempts self))
                 (Some now)))
      with (S (failed_login_attempts self)).
    rewrite Hfits. reflexivity.
  - unfold is_locked_out. simpl. split; intros H.
    + apply Z.ltb_ge in H. rewrite H. reflexivity.
    + apply Z.ltb_lt in H. rewrite H. reflexivity.
Qed.

Lemma handle_failed_login_attempts_fst (self : User) (now : Time) :
  fst (handle_failed_login_attempts settings self now)
  = assign_lockout self
      (if (LOGIN_ATTEMPTS settings
           <=? Z.of_nat (S (failed_login_attempts self)))%Z
       then LOCKED else account_status self)
      (S (failed_login_attempts self)) (Some now).
Proof.
  unfold handle_failed_login_attempts.
  destruct (LOGIN_ATTEMPTS settings <=? _)%Z; reflexivity.
Qed.

Lemma run_failures_from (instants : list Time) (self : User) :
  run settings (failures instants) self
  = Ok (assign_lockout self
          (if bool_decide (instants <> [])
              && (LOGIN_ATTEMPTS settings
                  <=? Z.of_nat (failed_login_attempts self
                                + length instants))%Z
           then LOCKED else account_status self)
          (failed_login_attempts self + length instants)
          (match last instants with
           | Some t => Some t
           | None => last_failed_login self
           end)).
Proof.
  revert self. induction instants as [|t rest IH]; intros self.
  - simpl. rewrite Nat.add_0_r. destruct self; reflexivity.
  - change (failures (t :: rest))
      with ((CallHandleFailedLoginAttempts, t) :: failures rest).
    simpl run. rewrite IH, handle_failed_login_attempts_fst.
    rewrite (bool_decide_true (t :: rest <> [])) by discriminate.
    unfold assign_lockout. simpl.
    replace (failed_login_attempts self + S (length rest))
      with (S (failed_login_attempts self + length rest)) by lia.
    f_equal. f_equal.
    + destruct (Z.leb_spec (LOGIN_ATTEMPTS settings)
                  (Z.of_nat (S (failed_login_attempts self + length rest))))
        as [E | E];
      destruct (Z.leb_spec (LOGIN_ATTEMPTS settings)
                  (Z.of_nat (S (failed_login_attempts self))))
        as [E' | E'];
      rewrite ?andb_true_r, ?andb_false_r; try reflexivity; try lia.
      * destruct (bool_decide (rest <> [])); reflexivity.
      * case_bool_decide as Hrest; [reflexivity|].
        assert (rest = []) as -> by (destruct rest; [reflexivity | congruence]).
        simpl in E. lia.
    + destruct rest as [|t' rest']; [reflexivity|].
      change (last (t :: t' :: rest')) with (last (t' :: rest')).
      destruct (last (t' :: rest')) as [l|] eqn:El; [reflexivity|].
      assert (Hsome : is_Some (last (t' :: rest')))
        by (apply last_is_Some; discriminate).
      rewrite El in Hsome. destruct Hsome as [x Hx]. discriminate Hx.
Qed.

(** While the counter fits its column, failed logins one after the other
    are the calls of [run]. *)
Lemma handle_failed_login_attempts_each_fits (instants : list Time)
    (self : User) :
  (Z.of_nat (failed_login_attempts self + length instants)
   <= SMALLINT_MAX)%Z ->
  handle_failed_login_attempts_each settings self instants
  = run settings (failures instants) self.
Proof.
  revert self. induction instants as [|t rest IH]; intros self Hfits.
  - reflexivity.
  - change (failures (t :: rest))
      with ((CallHandleFailedLoginAttempts, t) :: failures rest).
    simpl. simpl in Hfits.
    unfold handle_failed_login_attempts_saved, save.
    destruct (handle_failed_login_attempts_fields settings self t)
      as (Hn & _).
    rewrite Hn.
    assert (Hone : (Z.of_nat (S (failed_login_attempts self))
                    <=? SMALLINT_MAX)%Z = true) by (apply Z.leb_le; lia).
    rewrite Hone.
    destruct (handle_failed_login_attempts settings self t)
      as [self' mails] eqn:Hcall.
    simpl in Hn |- *. apply IH. rewrite Hn. lia.
Qed.

(** Past the largest value of the column they end with [DataError]. *)
Lemma handle_failed_login_attempts_each_overflows (instants : list Time)
    (self : User) :
  (Z.of_nat (failed_login_attempts self) <= SMALLINT_MAX)%Z ->
  (SMALLINT_MAX
   < Z.of_nat (failed_login_attempts self + length instants))%Z ->
  handle_failed_login_attempts_each settings self instants = Raise DataError.
Proof.
  revert self. induction instants as [|t rest IH]; intros self Hrow Hover.
  - simpl in Hover. lia.
  - simpl. simpl in Hover.
    unfold handle_failed_login_attempts_saved, save.
    destruct (handle_failed_login_attempts_fields settings self t)
      as (Hn & _).
    rewrite Hn.
    destruct (Z.leb_spec (Z.of_nat (S (failed_login_attempts self)))
                SMALLINT_MAX) as [Hone | Hone]; [|reflexivity].
    destruct (handle_failed_login_attempts settings self t)
      as [self' mails] eqn:Hcall.
    simpl in Hn. apply IH; rewrite Hn; [exact Hone | lia].
Qed.

(** X4.  Consecutive failed logins of a newly registered identity, at any
    instants.  Up to 32767 of them are all stored: the counter is their
    number, the last failure is the last instant, and the account is locked
    exactly when there is at least one failure and their number is at least
    the threshold.  With more of them the sequence ends with [DataError],
    raised by the failure that the column of the counter cannot hold. *)
Theorem consecutive_failures_lock_at_threshold
    (uid : nat) (e p : string) (instants : list Time) :
  ((Z.of_nat (length instants) <= SMALLINT_MAX)%Z ->
   exists self,
     handle_failed_login_attempts_each settings (registered uid e p) instants
     = Ok self
     /\ failed_login_attempts self = length instants
     /\ last_failed_login self = last instants
     /\ otp self = EmptyString
     /\ (account_status self = LOCKED <->
         instants <> []
         /\ (LOGIN_ATTEMPTS settings <= Z.of_nat (length instants))%Z))
  /\ ((SMALLINT_MAX < Z.of_nat (length instants))%Z ->
      handle_failed_login_attempts_each settings (registered uid e p) instants
      = Raise DataError).
Proof.
  split.
  - intros Hfits. eexists. split.
    { rewrite handle_failed_login_attempts_each_fits by exact Hfits.
      apply run_failures_from. }
    simpl.
    split; [reflexivity|]. split.
    + destruct (last instants); reflexivity.
    + split; [reflexivity|].
      destruct instants as [|t rest].
      * simpl. split; [discriminate | intros [H _]; congruence].
      * rewrite (bool_decide_true (t :: rest <> [])) by discriminate.
        simpl.
        destruct (Z.leb_spec (LOGIN_ATTEMPTS settings)
                    (Z.of_nat (S (length rest)))) as [E | E].
        -- split; [intros _; split; [discriminate | exact E] | reflexivity].
        -- split; [discriminate | intros [_ H]; lia].
  - intros Hover. apply handle_failed_login_attempts_each_overflows.
    + simpl. unfold SMALLINT_MAX. lia.
    + exact Hover.
Qed.

(** X5.  Reading [is_locked_out] again at the same instant gives the same
    answer and writes nothing more; and a false read is final: after it,
    every read at every instant is false and writes nothing. *)
Theorem is_locked_out_read_is_stable (self : User) (now : Time) :
  let read := is_locked_out settings self now in
  is_locked_out settings (snd read) now = read
  /\ (fst read = false ->
      forall later : Time,
        is_locked_out settings (snd read) later = (false, snd read)).
Proof.
  unfold is_locked_out, unlock_account.
  destruct (account_status self) eqn:Es; simpl.
  - rewrite Es. split; reflexivity.
  - destruct (last_failed_login self) eqn:El; simpl.
    + destruct (LOCKOUT_DURATION settings <? now - t)%Z eqn:E; simpl.
      * split; reflexivity.
      * rewrite Es, El, E. split; [reflexivity | discriminate].
    + rewrite Es, El. split; [reflexivity | discriminate].
Qed.

End LockoutMachine.

(** ** The one-time passcode *)

Section OtpMachine.

Variable settings : Settings.

(** X6.  A code stored at one instant verifies exactly at the instants
    before [issued + OTP_EXPIRATION]: then the answer is [True] and both OTP
    fields are cleared, with the lockout fields left as they were; at the
    expiry instant and after it the answer is [False] and the code stays
    stored.  Once cleared, the same non-empty code does not verify again at
    any instant. *)
Theorem set_otp_then_verify_otp
    (self : User) (code : string) (issued now : Time) :
  verify_otp (set_otp settings self code issued) code now
  = (if (now <? issued + OTP_EXPIRATION settings)%Z
     then Ok (true, assign_otp self EmptyString None)
     else Ok (false, set_otp settings self code issued))
  /\ account_status (assign_otp self EmptyString None) = account_status self
  /\ failed_login_attempts (assign_otp self EmptyString None)
     = failed_login_attempts self
  /\ last_failed_login (assign_otp self EmptyString None)
     = last_failed_login self
  /\ (code <> EmptyString ->
      forall again : Time,
        verify_otp (assign_otp self EmptyString None) code again
        = Ok (false, assign_otp self EmptyString None)).
Proof.
  split.
  - unfold verify_otp, set_otp. simpl. rewrite String.eqb_refl.
    destruct (now <? issued + OTP_EXPIRATION settings)%Z; reflexivity.
  - repeat (split; [reflexivity|]).
    intros Hne again. unfold verify_otp.
    change (otp (assign_otp self EmptyString None)) with EmptyString.
    rewrite (eqb_empty_false code Hne). reflexivity.
Qed.

(** X7.  [verify_otp] raises exactly when the submitted string equals the
    stored code and no expiry is stored; the exception is [TypeError] and
    nothing is written.  On an identity whose code and expiry are both
    present or both absent this is the empty submission against a cleared
    OTP, and nothing else. *)
Theorem verify_otp_raises_iff (self : User) (submitted : string) (now : Time) :
  (verify_otp self submitted now = Raise TypeError <->
   otp self = submitted /\ otp_expiry_time self = None)
  /\ (forall e, verify_otp self submitted now = Raise e -> e = TypeError)
  /\ (otp_paired self ->
      (verify_otp self submitted now = Raise TypeError <->
       submitted = EmptyString /\ otp self = EmptyString)).
Proof.
  assert (Hiff : verify_otp self submitted now = Raise TypeError <->
                 otp self = submitted /\ otp_expiry_time self = None).
  { unfold verify_otp.
    destruct (String.eqb_spec (otp self) submitted) as [Heq | Hne].
    - destruct (otp_expiry_time self) as [expiry|].
      + destruct (now <? expiry)%Z; split; try discriminate;
          intros [_ H]; discriminate H.
      + split; auto.
    - split; [discriminate | intros [H _]; congruence]. }
  split; [exact Hiff|]. split.
  - intros e. unfold verify_otp.
    destruct (String.eqb (otp self) submitted); [|discriminate].
    destruct (otp_expiry_time self) as [expiry|]; [|congruence].
    destruct (now <? expiry)%Z; discriminate.
  - intros Hpaired. rewrite Hiff. unfold otp_paired in Hpaired. split.
    + intros [Ho He]. apply Hpaired in He. split; congruence.
    + intros [Hs Ho]. split; [congruence | apply Hpaired; exact Ho].
Qed.

Lemma choice_digit (draw : nat) : isdigit (Utils.choice draw Utils.digits) = true.
Proof.
  unfold Utils.choice.
  assert (Hlt : draw mod String.length Utils.digits < 10)
    by (apply Nat.mod_upper_bound; discriminate).
  destruct (draw mod String.length Utils.digits) as [|[|[|[|[|[|[|[|[|[|n]]]]]]]]]];
    try reflexivity.
  lia.
Qed.

(** X8.  For every random source and every requested length, [generate_otp]
    returns exactly that many characters and each of them is a decimal
    digit; the length 0 gives the empty string. *)
Theorem generate_otp_digits (draws : nat -> nat) (length_ : nat) :
  String.length (Utils.generate_otp draws length_) = length_
  /\ Forall (fun c => isdigit c = true)
       (list_ascii_of_string (Utils.generate_otp draws length_))
  /\ Utils.generate_otp draws 0 = EmptyString.
Proof.
  split; [apply generate_otp_length|]. split; [|reflexivity].
  unfold Utils.generate_otp. rewrite list_ascii_of_string_of_list_ascii.
  apply Forall_forall. intros c Hc. apply list_elem_of_In in Hc.
  apply in_map_iff in Hc. destruct Hc as (k & <- & _). apply choice_digit.
Qed.

End OtpMachine.

(** ** The endpoints and the table *)

Section Endpoints.

Variable settings : Settings.
Variable credentials_ok : User -> LoginData -> bool.
Variable str_minutes str_minutes_0f : Timedelta -> string.

Local Abbreviation login :=
  (CustomTokenCreateView_post settings credentials_ok
     str_minutes str_minutes_0f).
Local Abbreviation verify := (OTPVerifyView_post settings str_minutes).

Lemma run_preserves (P : User -> Prop) :
  (forall c t u u',
      (forall o, c = CallSetOtp o -> o <> EmptyString) ->
      P u -> call settings c t u = Ok u' -> P u') ->
  forall (calls : list (Call * Time)) (u u' : User),
    Forall (fun ct => forall o, fst ct = CallSetOtp o -> o <> EmptyString)
      calls ->
    P u -> run settings calls u = Ok u' -> P u'.
Proof.
  intros Hcall calls.
  induction calls as [|[c t] rest IH]; intros u u' Hcodes Hu Hrun;
    simpl in Hrun.
  - inversion Hrun; subst. exact Hu.
  - inversion Hcodes as [|? ? Hc Hrest]; subst.
    destruct (call settings c t u) as [mid|e] eqn:Hmid; [|discriminate].
    apply (IH mid u' Hrest); [|exact Hrun].
    eapply Hcall; eauto.
Qed.

Lemma row_step_Forall (P : User -> Prop) (db db' : list User) :
  (forall c t u u',
      (forall o, c = CallSetOtp o -> o <> EmptyString) ->
      P u -> call settings c t u = Ok u' -> P u') ->
  row_step settings db db' ->
  Forall P db -> Forall P db'.
Proof.
  intros Hcall [-> | (i & u & u' & calls & Hi & Hrun & Hcodes & ->)] Hall;
    [exact Hall|].
  apply Forall_insert; [exact Hall|].
  eapply run_preserves; eauto.
  eapply Forall_lookup_1; eauto.
Qed.

Lemma login_row_step (db : list User) (request : LoginData)
    (now_fail now_gate now_otp : Time) (draws : nat -> nat) :
  row_step settings db
    (snd (fst (login db request now_fail now_gate now_otp draws))).
Proof.
  unfold CustomTokenCreateView_post.
  destruct (first_row (fun u => credentials_ok u request) db)
    as [[i user]|] eqn:Hrow.
  - destruct (first_row_Some _ _ _ _ Hrow) as (Hi & _ & _).
    unfold CustomTokenCreateView_action.
    destruct (is_locked_out settings user now_gate) as [locked user1] eqn:Hg.
    destruct locked; simpl; [left; reflexivity|].
    right. exists i, user,
      (set_otp settings (reset_failed_login_attempts user1)
         (Utils.generate_otp draws 6) now_otp),
      [(CallIsLockedOut, now_gate);
       (CallResetFailedLoginAttempts, now_gate);
       (CallSetOtp (Utils.generate_otp draws 6), now_otp)].
    split; [exact Hi|]. split; [simpl; rewrite Hg; reflexivity|].
    split; [|reflexivity].
    repeat constructor; simpl; intros o Ho; try discriminate Ho.
    inversion Ho; subst. apply generate_otp_nonempty.
  - destruct (first_row
                (fun u => bool_decide (Some (email u) = data_email request))
                db) as [[i user]|] eqn:Hmail; [|left; reflexivity].
    destruct (first_row_Some _ _ _ _ Hmail) as (Hi & _ & _).
    destruct (handle_failed_login_attempts settings user now_fail)
      as [user1 mails] eqn:Hh.
    assert (Hdb : forall (r1 r2 : Response),
      snd (fst (if (LOGIN_ATTEMPTS settings
                    <=? Z.of_nat (failed_login_attempts user1))%Z
                then (r1, <[i := user1]> db, mails)
                else (r2, <[i := user1]> db, mails)))
      = <[i := user1]> db).
    { intros r1 r2. destruct (LOGIN_ATTEMPTS settings <=? _)%Z; reflexivity. }
    rewrite Hdb.
    right. exists i, user, user1, [(CallHandleFailedLoginAttempts, now_fail)].
    split; [exact Hi|]. split; [simpl; rewrite Hh; reflexivity|].
    split; [|reflexivity].
    repeat constructor; simpl; intros o Ho; discriminate Ho.
Qed.

Lemma verify_row_step (db : list User) (otp_ : Submitted)
    (now_lookup now_gate now_verify now_token : Time)
    (jti_refresh jti_access : nat) :
  row_step settings db
    (snd (verify db otp_ now_lookup now_gate now_verify now_token
            jti_refresh jti_access)).
Proof.
  unfold OTPVerifyView_post.
  destruct (falsy otp_) eqn:Hfalsy; [left; reflexivity|].
  destruct (first_row (otp_lookup (as_text otp_) now_lookup) db)
    as [[i user]|] eqn:Hrow; [|left; reflexivity].
  destruct (first_row_Some _ _ _ _ Hrow) as (Hi & _ & _).
  destruct (is_locked_out settings user now_gate) as [locked user1] eqn:Hg.
  destruct locked; [left; reflexivity|].
  destruct otp_ as [|code|truth str_]; simpl verify_otp_submitted.
  - discriminate Hfalsy.
  - destruct (verify_otp user1 code now_verify) as [[b user2]|e] eqn:Hv;
      simpl.
    + right. exists i, user, user2,
        [(CallIsLockedOut, now_gate); (CallVerifyOtp code, now_verify)].
      split; [exact Hi|]. split; [simpl; rewrite Hg; simpl; rewrite Hv;
                                  reflexivity|].
      split; [|apply list_insert_insert_eq].
      repeat constructor; simpl; intros o Ho; discriminate Ho.
    + right. exists i, user, user1, [(CallIsLockedOut, now_gate)].
      split; [exact Hi|]. split; [simpl; rewrite Hg; reflexivity|].
      split; [|reflexivity].
      repeat constructor; simpl; intros o Ho; discriminate Ho.
  - simpl. right. exists i, user, user1, [(CallIsLockedOut, now_gate)].
    split; [exact Hi|]. split; [simpl; rewrite Hg; reflexivity|].
    split; [|apply list_insert_insert_eq].
    repeat constructor; simpl; intros o Ho; discriminate Ho.
Qed.

Lemma call_same_account (c : Call) (t : Time) (u u' : User) :
  call settings c t u = Ok u' -> same_account u u'.
Proof.
  intros Hcall. unfold same_account. destruct c; simpl in Hcall.
  - inversion Hcall; subst. repeat split.
  - unfold verify_otp in Hcall.
    destruct (String.eqb (otp u) otp_).
    + destruct (otp_expiry_time u); try discriminate.
      destruct (t <? t0)%Z; inversion Hcall; subst; repeat split.
    + inversion Hcall; subst. repeat split.
  - inversion Hcall; subst. unfold handle_failed_login_attempts.
    destruct (LOGIN_ATTEMPTS settings <=? _)%Z; repeat split.
  - inversion Hcall; subst. repeat split.
  - inversion Hcall; subst. unfold unlock_account.
    destruct (account_status u); repeat split.
  - inversion Hcall; subst. unfold is_locked_out, unlock_account.
    destruct (account_status u); [repeat split|].
    destruct (last_failed_login u); [|repeat split].
    destruct (LOCKOUT_DURATION settings <? t - t0)%Z; repeat split.
Qed.

Lemma row_step_same_account (db db' : list User) :
  row_step settings db db' ->
  length db' = length db
  /\ Forall2 same_account db db'
  /\ exists i, forall j, j <> i -> db' !! j = db !! j.
Proof.
  intros [-> | (i & u & u' & calls & Hi & Hrun & _ & ->)].
  - split; [reflexivity|]. split; [|exists 0; reflexivity].
    apply Forall_Forall2_diag. apply Forall_forall. intros x _.
    repeat split.
  - split; [apply length_insert|]. split.
    + rewrite <- (list_insert_id db i u Hi) at 1.
      apply Forall2_insert.
      * apply Forall_Forall2_diag. apply Forall_forall. intros x _.
        repeat split.
      * clear Hi. revert u Hrun.
        induction calls as [|[c t] rest IH]; intros u Hrun; simpl in Hrun.
        -- inversion Hrun; subst. repeat split.
        -- destruct (call settings c t u) as [mid|e] eqn:Hmid;
             [|discriminate].
           destruct (call_same_account c t u mid Hmid) as (H1 & H2 & H3).
           destruct (IH mid Hrun) as (H4 & H5 & H6).
           repeat split; congruence.
    + exists i. intros j Hj. apply list_lookup_insert_ne. congruence.
Qed.

(** X9.  Neither the login endpoint nor the OTP endpoint adds or removes a
    row or changes the identifier, the email or the password of a row, and
    each changes at most one row. *)
Theorem endpoints_keep_accounts
    (db : list User) (request : LoginData) (otp_ : Submitted)
    (now_fail now_gate now_otp now_lookup now_verify now_token : Time)
    (draws : nat -> nat) (jti_refresh jti_access : nat) :
  let db1 := snd (fst (login db request now_fail now_gate now_otp draws)) in
  let db2 := snd (verify db otp_ now_lookup now_gate now_verify now_token
                    jti_refresh jti_access) in
  (length db1 = length db
   /\ Forall2 same_account db db1
   /\ exists i, forall j, j <> i -> db1 !! j = db !! j)
  /\ (length db2 = length db
      /\ Forall2 same_account db db2
      /\ exists i, forall j, j <> i -> db2 !! j = db !! j).
Proof.
  split; apply row_step_same_account;
    [apply login_row_step | apply verify_row_step].
Qed.

(** X10.  Both endpoints keep the code and its expiry paired on every row:
    if on every row both are present or both absent before the request, so
    they are after it. *)
Theorem endpoints_keep_otp_paired
    (db : list User) (request : LoginData) (otp_ : Submitted)
    (now_fail now_gate now_otp now_lookup now_verify now_token : Time)
    (draws : nat -> nat) (jti_refresh jti_access : nat) :
  Forall otp_paired db ->
  Forall otp_paired
    (snd (fst (login db request now_fail now_gate now_otp draws)))
  /\ Forall otp_paired
       (snd (verify db otp_ now_lookup now_gate now_verify now_token
               jti_refresh jti_access)).
Proof.
  intros Hall.
  assert (Hcall : forall c t u u',
             (forall o, c = CallSetOtp o -> o <> EmptyString) ->
             otp_paired u -> call settings c t u = Ok u' -> otp_paired u').
  { intros c t u u'. apply call_otp_paired. }
  split; eapply row_step_Forall; eauto using login_row_step, verify_row_step.
Qed.

(** X11.  Both endpoints keep the lockout invariants on every row: a locked
    row has at least the threshold of failures and an instant of last
    failure, and, for a positive threshold, an active row has fewer failures
    than the threshold. *)
Theorem endpoints_keep_lockout_invariants
    (db : list User) (request : LoginData) (otp_ : Submitted)
    (now_fail now_gate now_otp now_lookup now_verify now_token : Time)
    (draws : nat -> nat) (jti_refresh jti_access : nat) :
  let db1 := snd (fst (login db request now_fail now_gate now_otp draws)) in
  let db2 := snd (verify db otp_ now_lookup now_gate now_verify now_token
                    jti_refresh jti_access) in
  (Forall (lockout_sound settings) db ->
   Forall (lockout_sound settings) db1 /\ Forall (lockout_sound settings) db2)
  /\ ((0 < LOGIN_ATTEMPTS settings)%Z ->
      Forall (lockout_consistent settings) db ->
      Forall (lockout_consistent settings) db1
      /\ Forall (lockout_consistent settings) db2).
Proof.
  intros db1 db2. split.
  - intros Hall.
    assert (Hcall : forall c t u u',
               (forall o, c = CallSetOtp o -> o <> EmptyString) ->
               lockout_sound settings u -> call settings c t u = Ok u' ->
               lockout_sound settings u').
    { intros c t u u' _. apply call_lockout_sound. }
    split; eapply row_step_Forall;
      eauto using login_row_step, verify_row_step.
  - intros Hpos Hall.
    assert (Hcall : forall c t u u',
               (forall o, c = CallSetOtp o -> o <> EmptyString) ->
               lockout_consistent settings u ->
               call settings c t u = Ok u' ->
               lockout_consistent settings u').
    { intros c t u u' _. apply call_lockout_consistent. exact Hpos. }
    split; eapply row_step_Forall;
      eauto using login_row_step, verify_row_step.
Qed.

End Endpoints.

(** ** The login endpoint on a failure *)

Section LoginFailure.

Variable settings : Settings.
Variable credentials_ok : User -> LoginData -> bool.
Variable str_minutes str_minutes_0f : Timedelta -> string.

Local Abbreviation login :=
  (CustomTokenCreateView_post settings credentials_ok
     str_minutes str_minutes_0f).
Local Abbreviation login_saved :=
  (CustomTokenCreateView_post_saved settings credentials_ok
     str_minutes str_minutes_0f).

(** X12.  A failed login with the email of a stored identity whose counter
    is below 32767 records the failure on its row whatever the answer: the
    counter is one more and the last failure is the instant of the request.
    Below the threshold the status is kept, nothing is mailed and the answer
    is the generic 400; from the threshold on the row is locked, one
    account-locked mail goes to the email of the identity with the lockout
    duration in whole minutes, and the answer is the 403 lockout response.
    With the counter at 32767 the request ends with [DataError]: nothing is
    recorded and nothing is mailed. *)
Theorem login_failure_recorded
    (db : list User) (request : LoginData) (i : nat) (user : User)
    (now_fail now_gate now_otp : Time) (draws : nat -> nat) :
  first_row (fun u => credentials_ok u request) db = None ->
  first_row (fun u => bool_decide (Some (email u) = data_email request)) db
  = Some (i, user) ->
  let attempts := S (failed_login_attempts user) in
  ((Z.of_nat attempts <= SMALLINT_MAX)%Z ->
   ((Z.of_nat attempts < LOGIN_ATTEMPTS settings)%Z ->
    login_saved db request now_fail now_gate now_otp draws
    = (Ok invalid_credentials_response,
       <[i := assign_lockout user (account_status user) attempts
                (Some now_fail)]> db,
       []))
   /\ ((LOGIN_ATTEMPTS settings <= Z.of_nat attempts)%Z ->
       login_saved db request now_fail now_gate now_otp draws
       = (Ok (exceeded_attempts_response settings str_minutes_0f),
          <[i := assign_lockout user LOCKED attempts (Some now_fail)]> db,
          [AccountLockedMail (email user)
             (LOCKOUT_DURATION settings / 1000000 / 60)%Z]))
   /\ login_saved db request now_fail now_gate now_otp draws
      = (let '(response, db', mails) :=
           login db request now_fail now_gate now_otp draws in
         (Ok response, db', mails)))
  /\ ((SMALLINT_MAX < Z.of_nat attempts)%Z ->
      login_saved db request now_fail now_gate now_otp draws
      = (Raise DataError, db, []))
  /\ (forall u', <[i := u']> db !! i = Some u').
Proof.
  intros Hcred Hmail attempts.
  destruct (first_row_Some _ _ _ _ Hmail) as (Hi & _ & Hlen).
  unfold CustomTokenCreateView_post_saved, CustomTokenCreateView_post.
  rewrite Hcred, Hmail.
  unfold handle_failed_login_attempts_saved, save.
  rewrite handle_failed_login_attempts_fst.
  change (failed_login_attempts (assign_lockout user _ _ _))
    with attempts.
  split; [|split].
  - intros Hfits. apply Z.leb_le in Hfits. rewrite Hfits.
    unfold handle_failed_login_attempts. fold attempts.
    split; [|split].
    + intros H. apply Z.leb_gt in H. rewrite H. simpl. fold attempts.
      rewrite H. reflexivity.
    + intros H. apply Z.leb_le in H. rewrite H. simpl. fold attempts.
      rewrite H. reflexivity.
    + destruct (LOGIN_ATTEMPTS settings <=? Z.of_nat attempts)%Z eqn:H;
        simpl; fold attempts; rewrite H; reflexivity.
  - intros Hover. apply Z.leb_gt in Hover. rewrite Hover. reflexivity.
  - intros u'. apply list_lookup_insert_eq. exact Hlen.
Qed.


End LoginFailure.

(** ** The OTP endpoint *)

Section OtpEndpoint.

Variable settings : Settings.
Variable str_minutes : Timedelta -> string.

Local Abbreviation verify := (OTPVerifyView_post settings str_minutes).

(** X14.  The OTP endpoint never raises: the [TypeError] of [verify_otp] is
    out of its reach, because the lookup only finds rows with an expiry and
    the lockout read leaves the OTP fields alone. *)
Theorem otp_endpoint_never_raises
    (db : list User) (otp_ : Submitted)
    (now_lookup now_gate now_verify now_token : Time)
    (jti_refresh jti_access : nat) :
  exists response,
    fst (verify db otp_ now_lookup now_gate now_verify now_token
           jti_refresh jti_access) = Ok response.
Proof.
  unfold OTPVerifyView_post.
  destruct (falsy otp_) eqn:Hfalsy; [eexists; reflexivity|].
  destruct (first_row (otp_lookup (as_text otp_) now_lookup) db)
    as [[i user]|] eqn:Hrow; [|eexists; reflexivity].
  destruct (first_row_Some _ _ _ _ Hrow) as (_ & Hp & _).
  apply otp_lookup_true in Hp as (Ho & expiry & He & _).
  destruct (gate_keeps_otp settings user now_gate) as (Ho1 & He1 & _).
  destruct (is_locked_out settings user now_gate) as [locked user1].
  simpl in Ho1, He1.
  destruct locked; [eexists; reflexivity|].
  destruct otp_ as [|code|truth str_]; simpl in Ho |- *;
    try (eexists; reflexivity).
  unfold verify_otp. rewrite Ho1, He1, Ho, He, String.eqb_refl.
  destruct (now_verify <? expiry)%Z; simpl; eexists; reflexivity.
Qed.

(** X15.  A session is issued only to the holder of the code: when the
    answer is 200, the submission is not empty, some row stores its text
    (the string itself, or [str] of a value that is not a string) with an
    expiry after the instant of the lookup, the lockout read of that row is
    false, and the access and refresh cookies carry tokens for the
    identifier of that row. *)
Theorem otp_session_only_for_code_holder
    (db : list User) (otp_ : Submitted)
    (now_lookup now_gate now_verify now_token : Time)
    (jti_refresh jti_access : nat) (response : Response) :
  fst (verify db otp_ now_lookup now_gate now_verify now_token
         jti_refresh jti_access) = Ok response ->
  status_code response = 200 ->
  exists (i : nat) (user : User) (expiry : Time),
    falsy otp_ = false
    /\ db !! i = Some user
    /\ otp user = as_text otp_
    /\ otp_expiry_time user = Some expiry
    /\ (now_lookup < expiry)%Z
    /\ fst (is_locked_out settings user now_gate) = false
    /\ value <$> cookies response !! "access"
       = Some (Jwt (snd (for_user SIMPLE_JWT (user_id user) now_token
                           jti_refresh jti_access)))
    /\ value <$> cookies response !! "refresh"
       = Some (Jwt (fst (for_user SIMPLE_JWT (user_id user) now_token
                           jti_refresh jti_access))).
Proof.
  intros Hresp Hstatus.
  unfold OTPVerifyView_post in Hresp.
  destruct (falsy otp_) eqn:Hfalsy.
  { inversion Hresp; subst. discriminate Hstatus. }
  destruct (first_row (otp_lookup (as_text otp_) now_lookup) db)
    as [[i user]|] eqn:Hrow.
  2:{ inversion Hresp; subst. discriminate Hstatus. }
  destruct (first_row_Some _ _ _ _ Hrow) as (Hi & Hp & _).
  apply otp_lookup_true in Hp as (Ho & expiry & He & Hlt).
  destruct (gate_keeps_otp settings user now_gate) as (Ho1 & He1 & Hid1).
  exists i, user, expiry.
  destruct (is_locked_out settings user now_gate) as [locked user1].
  simpl in Ho1, He1, Hid1 |- *.
  destruct locked.
  { inversion Hresp; subst. discriminate Hstatus. }
  assert (Hcookies :
    value <$> cookies response !! "access"
    = Some (Jwt (snd (for_user SIMPLE_JWT (user_id user) now_token
                        jti_refresh jti_access)))
    /\ value <$> cookies response !! "refresh"
       = Some (Jwt (fst (for_user SIMPLE_JWT (user_id user) now_token
                           jti_refresh jti_access)))).
  { destruct otp_ as [|code|truth str_]; simpl in Ho, Hresp.
    - discriminate Hfalsy.
    - unfold verify_otp in Hresp.
      rewrite Ho1, He1, Ho, He, String.eqb_refl in Hresp.
      destruct (now_verify <? expiry)%Z; simpl in Hresp;
        inversion Hresp; subst; rewrite <- Hid1; split; reflexivity.
    - inversion Hresp; subst. rewrite <- Hid1. split; reflexivity. }
  repeat (split; [assumption || reflexivity|]).
  exact Hcookies.
Qed.

(** X16.  The endpoint does not look at the answer of [verify_otp]: when
    the lookup finds a row and the lockout read is false, the answer is 200
    with the session cookies whatever the verification says.  The code is
    cleared exactly when the submission is a string and the code is still
    unexpired at the instant of the verification; a code that expires
    between the lookup and the verification, and a code that is submitted as
    a value that is not a string (a number of the JSON body), opens a
    session and stays stored. *)
Theorem otp_session_despite_failed_verification
    (db : list User) (otp_ : Submitted) (i : nat) (user : User)
    (expiry : Time) (now_lookup now_gate now_verify now_token : Time)
    (jti_refresh jti_access : nat) :
  falsy otp_ = false ->
  first_row (otp_lookup (as_text otp_) now_lookup) db = Some (i, user) ->
  otp_expiry_time user = Some expiry ->
  fst (is_locked_out settings user now_gate) = false ->
  let user1 := snd (is_locked_out settings user now_gate) in
  let tokens :=
    for_user SIMPLE_JWT (user_id user) now_token jti_refresh jti_access in
  let cleared :=
    match otp_ with
    | Text _ => (now_verify <? expiry)%Z
    | Absent | NonText _ _ => false
    end in
  verify db otp_ now_lookup now_gate now_verify now_token
    jti_refresh jti_access
  = (Ok (set_auth_cookies settings SIMPLE_JWT login_successful_response
           (Jwt (snd tokens)) (Some (Jwt (fst tokens)))),
     <[i := if cleared then assign_otp user1 EmptyString None else user1]> db)
  /\ (cleared = false ->
      otp user1 = as_text otp_ /\ otp_expiry_time user1 = Some expiry).
Proof.
  intros Hfalsy Hrow He Hgate user1 tokens cleared.
  destruct (first_row_Some _ _ _ _ Hrow) as (Hi & Hp & _).
  apply otp_lookup_true in Hp as (Ho & _).
  destruct (gate_keeps_otp settings user now_gate) as (Ho1 & He1 & Hid1).
  split.
  - unfold OTPVerifyView_post. rewrite Hfalsy, Hrow.
    unfold user1, tokens, cleared.
    destruct (is_locked_out settings user now_gate) as [locked u1].
    simpl in Hgate, Ho1, He1, Hid1 |- *. subst locked.
    destruct otp_ as [|code|truth str_]; simpl in Ho |- *.
    + discriminate Hfalsy.
    + unfold verify_otp. rewrite Ho1, He1, Ho, He, String.eqb_refl.
      destruct (now_verify <? expiry)%Z; simpl;
        rewrite list_insert_insert_eq, ?Hid1; reflexivity.
    + rewrite list_insert_insert_eq, Hid1. reflexivity.
  - intros _. unfold user1. rewrite Ho1, He1. auto.
Qed.

(** X17.  A refused OTP submission writes nothing: whenever the answer is
    not 200 (no or empty submission, no row with that unexpired code, or a
    locked-out holder), the table is the one before. *)
Theorem otp_refusal_writes_nothing
    (db : list User) (otp_ : Submitted)
    (now_lookup now_gate now_verify now_token : Time)
    (jti_refresh jti_access : nat) (response : Response) :
  fst (verify db otp_ now_lookup now_gate now_verify now_token
         jti_refresh jti_access) = Ok response ->
  status_code response <> 200 ->
  snd (verify db otp_ now_lookup now_gate now_verify now_token
         jti_refresh jti_access) = db
  /\ (status_code response = 400 \/ status_code response = 403)
  /\ cookies response = ∅.
Proof.
  intros Hresp Hstatus.
  unfold OTPVerifyView_post in Hresp |- *.
  destruct (falsy otp_) eqn:Hfalsy.
  { inversion Hresp; subst. repeat split. left. reflexivity. }
  destruct (first_row (otp_lookup (as_text otp_) now_lookup) db)
    as [[i user]|] eqn:Hrow.
  2:{ inversion Hresp; subst. repeat split. left. reflexivity. }
  destruct (is_locked_out settings user now_gate) as [locked user1].
  destruct locked.
  { inversion Hresp; subst. repeat split. right. reflexivity. }
  destruct (verify_otp_submitted user1 otp_ now_verify) as [[b user2]|e];
    simpl in Hresp; [|discriminate Hresp].
  inversion Hresp; subst. exfalso. apply Hstatus. reflexivity.
Qed.

End OtpEndpoint.

(** ** Cookies *)

Section Cookies.

Variable settings : Settings.

(** X18.  [set_auth_cookies] leaves the status and the body as they are,
    sets the access cookie (http-only, access lifetime) and the logged-in
    flag cookie (value "true", readable by scripts, access lifetime), and
    sets the refresh cookie (http-only, refresh lifetime) exactly when a
    non-empty refresh token is given; without one a refresh cookie already
    on the response is kept.  All three have the path "/", same-site "Lax"
    and the configured secure flag, and no other cookie is touched. *)
Theorem set_auth_cookies_sets_three
    (cfg : Config) (response : Response) (access_token : Value)
    (refresh_token : option Value) :
  let out := set_auth_cookies settings cfg response access_token
               refresh_token in
  let cookie v h age :=
    {| value := v; path := "/"; secure := COOKIE_SECURE settings;
       httponly := h; samesite := "Lax"; max_age := age |} in
  status_code out = status_code response
  /\ data out = data response
  /\ cookies out !! "access"
     = Some (cookie access_token true (ACCESS_TOKEN_LIFETIME cfg))
  /\ cookies out !! "logged_in"
     = Some (cookie (Str "true") false (ACCESS_TOKEN_LIFETIME cfg))
  /\ (forall r, refresh_token = Some r ->
        truthy (Some r) = true ->
        cookies out !! "refresh"
        = Some (cookie r true (REFRESH_TOKEN_LIFETIME cfg)))
  /\ (truthy refresh_token = false ->
      cookies out !! "refresh" = cookies response !! "refresh")
  /\ (forall k, k <> "access" -> k <> "refresh" -> k <> "logged_in" ->
        cookies out !! k = cookies response !! k).
Proof.
  intros out cookie. unfold out, set_auth_cookies, set_cookie.
  split; [destruct refresh_token as [r|]; [destruct (truthy (Some r))|];
          reflexivity|].
  split; [destruct refresh_token as [r|]; [destruct (truthy (Some r))|];
          reflexivity|].
  split.
  { destruct refresh_token as [r|]; [destruct (truthy (Some r))|]; simpl;
      rewrite ?(lookup_insert_ne _ "logged_in" "access") by discriminate;
      rewrite ?(lookup_insert_ne _ "refresh" "access") by discriminate;
      rewrite lookup_insert_eq; reflexivity. }
  split.
  { destruct refresh_token as [r|]; [destruct (truthy (Some r))|]; simpl;
      rewrite lookup_insert_eq; reflexivity. }
  split.
  { intros r -> Ht. rewrite Ht. simpl.
    rewrite (lookup_insert_ne _ "logged_in" "refresh") by discriminate.
    rewrite lookup_insert_eq. reflexivity. }
  split.
  { intros Ht. destruct refresh_token as [r|]; [rewrite Ht|]; simpl;
      rewrite (lookup_insert_ne _ "logged_in" "refresh") by discriminate;
      rewrite (lookup_insert_ne _ "access" "refresh") by discriminate;
      reflexivity. }
  intros k Ha Hr Hl.
  destruct refresh_token as [r|]; [destruct (truthy (Some r))|]; simpl;
    rewrite !lookup_insert_ne by congruence; reflexivity.
Qed.

(** X19.  Logout answers 204 with an empty body and expires exactly the
    cookies that [set_auth_cookies] sets with a refresh token: its cookies
    are those three names, each with the empty value and a zero max-age. *)
Theorem logout_expires_session_cookies
    (cfg : Config) (body : list (string * Value)) (status : nat)
    (access_token refresh_token : Value) :
  truthy (Some refresh_token) = true ->
  status_code Logout.LogoutAPIView_post = 204
  /\ data Logout.LogoutAPIView_post = ∅
  /\ dom (cookies Logout.LogoutAPIView_post)
     = dom (cookies (set_auth_cookies settings cfg (respond body status)
                       access_token (Some refresh_token)))
  /\ map_Forall
       (fun _ c => value c = Str EmptyString /\ max_age c = 0%Z)
       (cookies Logout.LogoutAPIView_post).
Proof.
  intros Ht. split; [reflexivity|]. split; [reflexivity|]. split.
  - unfold set_auth_cookies. rewrite Ht.
    unfold Logout.LogoutAPIView_post, Logout.delete_cookie, set_cookie,
      respond. simpl. rewrite !dom_insert_L, !dom_empty_L. set_solver.
  - unfold Logout.LogoutAPIView_post, Logout.delete_cookie, set_cookie,
      respond. simpl.
    repeat (apply map_Forall_insert_2; [split; reflexivity|]).
    apply map_Forall_empty.
Qed.

(** The view on a JSON body depends on its request only through the
    refresh token it hands on. *)
Lemma refresh_post_presented
    (cfg : Config) (blacklist : gset nat) (request1 request2 : Request)
    (now : Time) (jti_access jti_refresh : nat) :
  presented_refresh_token request1 = presented_refresh_token request2 ->
  CustomTokenRefreshView_post settings cfg blacklist request1 now
    jti_access jti_refresh
  = CustomTokenRefreshView_post settings cfg blacklist request2 now
      jti_access jti_refresh.
Proof.
  intros Hsame.
  assert (Hbody : forall request,
    TokenRefreshView_post cfg blacklist
      (match COOKIES request !! "refresh" with
       | Some r =>
           if truthy (COOKIES request !! "refresh")
           then <["refresh" := r]> (request_data request)
           else request_data request
       | None => request_data request
       end) now jti_access jti_refresh
    = TokenRefreshView_post cfg blacklist
        (match presented_refresh_token request with
         | Some r => {["refresh" := r]}
         | None => ∅
         end) now jti_access jti_refresh).
  { intros request. unfold presented_refresh_token, TokenRefreshView_post.
    destruct (COOKIES request !! "refresh") as [c|] eqn:Hc.
    - destruct (truthy (Some c)) eqn:Ht.
      + rewrite lookup_insert_eq, lookup_singleton_eq. reflexivity.
      + destruct (request_data request !! "refresh") as [b|] eqn:Hb.
        * rewrite lookup_singleton_eq. reflexivity.
        * rewrite lookup_empty. reflexivity.
    - simpl. destruct (request_data request !! "refresh") as [b|] eqn:Hb.
      + rewrite lookup_singleton_eq. reflexivity.
      + rewrite lookup_empty. reflexivity. }
  unfold CustomTokenRefreshView_post.
  rewrite (Hbody request1), (Hbody request2), Hsame. reflexivity.
Qed.

(** X20.  A request with a refresh cookie that is not empty and a body that
    cannot be assigned to (a form-encoded body) ends with [AttributeError]
    and no answer.  Every other request is answered, and the answer depends
    on the request only through the refresh token that is handed on: the
    cookie when it is not empty, overriding the body, and the refresh entry
    of the body otherwise; two such requests that present the same token get
    the same answer, whatever else they carry. *)
Theorem refresh_reads_cookie_before_body
    (cfg : Config) (blacklist : gset nat)
    (now : Time) (jti_access jti_refresh : nat) :
  (forall request : Request,
      truthy (COOKIES request !! "refresh") = true ->
      CustomTokenRefreshView_post_on settings false cfg blacklist request now
        jti_access jti_refresh
      = (Raise AttributeError, blacklist))
  /\ (forall (mutable1 mutable2 : bool) (request1 request2 : Request),
        mutable1 = true \/ truthy (COOKIES request1 !! "refresh") = false ->
        mutable2 = true \/ truthy (COOKIES request2 !! "refresh") = false ->
        presented_refresh_token request1 = presented_refresh_token request2 ->
        CustomTokenRefreshView_post_on settings mutable1 cfg blacklist
          request1 now jti_access jti_refresh
        = CustomTokenRefreshView_post_on settings mutable2 cfg blacklist
            request2 now jti_access jti_refresh
        /\ exists response,
             fst (CustomTokenRefreshView_post_on settings mutable1 cfg
                    blacklist request1 now jti_access jti_refresh)
             = Ok response).
Proof.
  split.
  - intros request Ht. unfold CustomTokenRefreshView_post_on.
    rewrite Ht. reflexivity.
  - intros mutable1 mutable2 request1 request2 H1 H2 Hsame.
    assert (Hon : forall mutable request,
      mutable = true \/ truthy (COOKIES request !! "refresh") = false ->
      CustomTokenRefreshView_post_on settings mutable cfg blacklist request
        now jti_access jti_refresh
      = (Ok (fst (CustomTokenRefreshView_post settings cfg blacklist request
                    now jti_access jti_refresh)),
         snd (CustomTokenRefreshView_post settings cfg blacklist request
                now jti_access jti_refresh))).
    { intros mutable request H. unfold CustomTokenRefreshView_post_on.
      assert (Hguard : truthy (COOKIES request !! "refresh") && negb mutable
                       = false).
      { destruct H as [-> | ->]; [apply andb_false_r | reflexivity]. }
      rewrite Hguard.
      destruct (CustomTokenRefreshView_post settings cfg blacklist request
                  now jti_access jti_refresh); reflexivity. }
    rewrite (Hon mutable1 request1 H1), (Hon mutable2 request2 H2).
    rewrite (refresh_post_presented cfg blacklist request1 request2 now
               jti_access jti_refresh Hsame).
    split; [reflexivity | eexists; reflexivity].
Qed.

End Cookies.

(** ** Text *)

Section TextFacts.

Import Text.

Lemma lstrip_head (s : list Ascii.ascii) (c : Ascii.ascii)
    (rest : list Ascii.ascii) :
  lstrip s = c :: rest -> isspace c = false.
Proof.
  induction s as [|a s IH]; simpl; [discriminate|].
  destruct (isspace a) eqn:Ha; [exact IH|].
  intros H. inversion H; subst. exact Ha.
Qed.

Lemma lstrip_suffix (s : list Ascii.ascii) :
  exists dropped,
    s = dropped ++ lstrip s /\ Forall (fun c => isspace c = true) dropped.
Proof.
  induction s as [|a s (dropped & Hs & Hd)]; simpl.
  - exists []. split; [reflexivity | constructor].
  - destruct (isspace a) eqn:Ha.
    + exists (a :: dropped). split; [simpl; congruence|].
      constructor; assumption.
    + exists []. split; [reflexivity | constructor].
Qed.

Lemma rstrip_prefix (s : list Ascii.ascii) :
  exists dropped, s = rstrip s ++ dropped.
Proof.
  unfold rstrip. destruct (lstrip_suffix (rev s)) as (d & Hs & _).
  exists (rev d). rewrite <- rev_app_distr, <- Hs, rev_involutive.
  reflexivity.
Qed.

Lemma rstrip_last (s init : list Ascii.ascii) (c : Ascii.ascii) :
  rstrip s = init ++ [c] -> isspace c = false.
Proof.
  unfold rstrip. intros H.
  apply (f_equal (@rev Ascii.ascii)) in H.
  rewrite rev_involutive, rev_app_distr in H. simpl in H.
  eapply lstrip_head; eauto.
Qed.

Lemma strip_ends (s : list Ascii.ascii) :
  (forall c rest, strip s = c :: rest -> isspace c = false)
  /\ (forall init c, strip s = init ++ [c] -> isspace c = false).
Proof.
  split.
  - intros c rest H. unfold strip in H.
    destruct (rstrip_prefix (lstrip s)) as (d & Hd).
    rewrite H in Hd. simpl in Hd. eapply lstrip_head; eauto.
  - intros init c H. eapply rstrip_last; eauto.
Qed.

Lemma space_not_cased (c : Ascii.ascii) :
  isspace c = true -> islower c = false /\ isupper c = false.
Proof.
  unfold isspace, islower, isupper. intros H.
  apply orb_true_iff in H.
  rewrite !andb_true_iff, !Nat.leb_le in H.
  split; apply andb_false_iff; rewrite !Nat.leb_gt; lia.
Qed.

Lemma upper_is_upper (c : Ascii.ascii) :
  islower c = true ->
  isupper (upper c) = true /\ islower (upper c) = false.
Proof.
  destruct c as [[] [] [] [] [] [] [] []]; try discriminate;
    intros _; split; reflexivity.
Qed.

Lemma lower_is_lower (c : Ascii.ascii) :
  isupper c = true ->
  islower (lower c) = true /\ isupper (lower c) = false.
Proof.
  destruct c as [[] [] [] [] [] [] [] []]; try discriminate;
    intros _; split; reflexivity.
Qed.

Lemma not_both_cases (c : Ascii.ascii) :
  islower c = true -> isupper c = false.
Proof.
  unfold islower, isupper. rewrite andb_true_iff, !Nat.leb_le.
  intros H. apply andb_false_iff. rewrite !Nat.leb_gt. lia.
Qed.

Lemma title_from_titled (previous_is_cased : bool) (s : list Ascii.ascii) :
  titled previous_is_cased (title_from previous_is_cased s).
Proof.
  revert previous_is_cased.
  induction s as [|c s IH]; intros previous_is_cased; simpl; [exact I|].
  destruct (islower c) eqn:Hl.
  - destruct (upper_is_upper c Hl) as [Hu1 Hu2].
    pose proof (not_both_cases c Hl) as Hn.
    destruct previous_is_cased; simpl.
    + rewrite Hl, Hn. split; [reflexivity | apply IH].
    + rewrite Hu1, Hu2. split; [reflexivity | apply IH].
  - destruct (isupper c) eqn:Hu.
    + destruct (lower_is_lower c Hu) as [Hl1 Hl2].
      destruct previous_is_cased; simpl.
      * rewrite Hl1, Hl2. split; [reflexivity | apply IH].
      * rewrite Hl, Hu. split; [reflexivity | apply IH].
    + simpl. rewrite Hl, Hu.
      split; [destruct previous_is_cased; reflexivity | apply IH].
Qed.

Lemma lstrip_titled (previous_is_cased : bool) (s : list Ascii.ascii) :
  titled previous_is_cased s ->
  lstrip s = s \/ titled false (lstrip s).
Proof.
  revert previous_is_cased.
  induction s as [|c s IH]; intros previous_is_cased H; simpl.
  - left. reflexivity.
  - destruct (isspace c) eqn:Hc; [|left; reflexivity].
    right. destruct H as [_ H].
    destruct (space_not_cased c Hc) as [Hl Hu]. rewrite Hl, Hu in H.
    simpl in H. destruct (IH false H) as [-> | Ht]; assumption.
Qed.

Lemma titled_prefix (previous_is_cased : bool) (s1 s2 : list Ascii.ascii) :
  titled previous_is_cased (s1 ++ s2) -> titled previous_is_cased s1.
Proof.
  revert previous_is_cased.
  induction s1 as [|c s1 IH]; intros previous_is_cased; simpl; [auto|].
  intros [H1 H2]. split; [exact H1 | apply IH; exact H2].
Qed.

Lemma strip_titled (s : list Ascii.ascii) :
  titled false s -> titled false (strip s).
Proof.
  intros H. unfold strip.
  destruct (rstrip_prefix (lstrip s)) as (d & Hd).
  apply (titled_prefix false _ d). rewrite <- Hd.
  destruct (lstrip_titled false s H) as [-> | Ht]; assumption.
Qed.

Lemma list_ascii_of_string_app (a b : string) :
  list_ascii_of_string (a +:+ b)
  = list_ascii_of_string a ++ list_ascii_of_string b.
Proof. induction a as [|c a IH]; simpl; [reflexivity | rewrite IH; reflexivity]. Qed.

Lemma title_from_length (previous_is_cased : bool) (s : list Ascii.ascii) :
  length (title_from previous_is_cased s) = length s.
Proof.
  revert previous_is_cased.
  induction s as [|c s IH]; intros previous_is_cased; simpl; [reflexivity|].
  destruct (islower c); [|destruct (isupper c)]; simpl; rewrite IH;
    reflexivity.
Qed.

Lemma title_from_spaces (previous_is_cased : bool) (s : list Ascii.ascii) :
  Forall (fun c => isspace c = true) s ->
  title_from previous_is_cased s = s.
Proof.
  intros H. revert previous_is_cased.
  induction H as [|c s Hc _ IH]; intros previous_is_cased; simpl;
    [reflexivity|].
  destruct (space_not_cased c Hc) as [-> ->]. rewrite IH. reflexivity.
Qed.

Lemma lstrip_spaces (s : list Ascii.ascii) :
  Forall (fun c => isspace c = true) s -> lstrip s = [].
Proof.
  induction 1 as [|c s Hc _ IH]; simpl; [reflexivity|].
  rewrite Hc. exact IH.
Qed.

Lemma lstrip_length (s : list Ascii.ascii) : length (lstrip s) <= length s.
Proof.
  induction s as [|c s IH]; simpl; [lia|].
  destruct (isspace c); simpl; lia.
Qed.

(** X21.  [full_name] never begins or ends with whitespace, is in title
    case (no upper-case letter right after a letter, no lower-case letter
    at the start or after a character that is not a letter), is no longer
    than the two names and the space between them, and is empty when both
    names are blank. *)
Theorem full_name_stripped_title (first_name last_name : string) :
  let name :=
    list_ascii_of_string (Names.full_name first_name last_name) in
  (forall c rest, name = c :: rest -> isspace c = false)
  /\ (forall init c, name = init ++ [c] -> isspace c = false)
  /\ titled false name
  /\ length name <= String.length first_name + 1 + String.length last_name
  /\ (Forall (fun c => isspace c = true) (list_ascii_of_string first_name) ->
      Forall (fun c => isspace c = true) (list_ascii_of_string last_name) ->
      Names.full_name first_name last_name = EmptyString).
Proof.
  intros name. unfold name, Names.full_name.
  rewrite list_ascii_of_string_of_list_ascii.
  set (raw := list_ascii_of_string (first_name +:+ " " +:+ last_name)).
  destruct (strip_ends (title raw)) as [Hhead Hlast].
  split; [exact Hhead|]. split; [exact Hlast|]. split.
  - apply strip_titled. apply title_from_titled.
  - split.
    + unfold strip, rstrip. rewrite length_rev.
      etransitivity; [apply lstrip_length|]. rewrite length_rev.
      etransitivity; [apply lstrip_length|].
      unfold title. rewrite title_from_length. unfold raw.
      rewrite !list_ascii_of_string_app, !length_app.
      assert (Hlen : forall s, length (list_ascii_of_string s)
                               = String.length s).
      { induction s as [|c s IH]; simpl; [reflexivity | rewrite IH;
                                          reflexivity]. }
      rewrite !Hlen. simpl. lia.
    + intros Hf Hl.
      assert (Hraw : Forall (fun c => isspace c = true) raw).
      { unfold raw. rewrite !list_ascii_of_string_app.
        apply Forall_app. split; [exact Hf|].
        apply Forall_app. split; [|exact Hl].
        constructor; [reflexivity | constructor]. }
      unfold title. rewrite (title_from_spaces false raw Hraw).
      unfold strip. rewrite (lstrip_spaces raw Hraw). reflexivity.
Qed.

End TextFacts.

(** ** The user manager *)

Section ManagerFacts.

Variable BANK_NAME : option string.
Variable normalize_email : string -> string.
Variable validate_email : string -> bool.
Variable make_password : string -> string.
Variable accepts : string -> bool.

Local Abbreviation generate_username := (Managers.generate_username BANK_NAME).
Local Abbreviation create_user :=
  (Managers.create_user BANK_NAME normalize_email validate_email
     make_password accepts).
Local Abbreviation create_superuser :=
  (Managers.create_superuser BANK_NAME normalize_email validate_email
     make_password accepts).

Lemma split_from_nonempty (word s : list Ascii.ascii) :
  Forall (fun w => w <> []) (Text.split_from word s).
Proof.
  revert word. induction s as [|c s IH]; intros word; simpl.
  - destruct word as [|a word]; constructor; [|constructor].
    intros H. apply (f_equal (@length _)) in H.
    rewrite length_rev in H. discriminate H.
  - destruct (Text.isspace c); [|apply IH].
    destruct word as [|a word]; [apply IH|].
    constructor; [|apply IH].
    intros H. apply (f_equal (@length _)) in H.
    rewrite length_rev in H. discriminate H.
Qed.

Lemma initials_length (words : list (list Ascii.ascii)) :
  Forall (fun w => w <> []) words ->
  length (concat (map (fun word =>
                         match word with
                         | c :: _ => [Text.upper c]
                         | [] => []
                         end) words))
  = length words.
Proof.
  induction 1 as [|w words Hw _ IH]; simpl; [reflexivity|].
  destruct w as [|c w]; [congruence|]. simpl. rewrite IH. reflexivity.
Qed.

Lemma string_of_list_ascii_length (l : list Ascii.ascii) :
  String.length (string_of_list_ascii l) = length l.
Proof. induction l as [|c l IH]; simpl; [reflexivity | rewrite IH; reflexivity]. Qed.

(** X22.  With [BANK_NAME] unset [generate_username] raises
    [AttributeError].  With it set, the username has one initial for each
    word of the bank name (dots, hyphens and underscores separating words
    like blanks), a hyphen, and random characters up to twelve characters in
    all: its length is 12 when the name has at most eleven words, whatever
    is drawn, and one more than the number of words, beyond the twelve
    characters of the username column, when it has more. *)
Theorem generate_username_length (draws : nat -> nat) :
  (BANK_NAME = None -> generate_username draws = inl Managers.AttributeError)
  /\ (forall name, BANK_NAME = Some name ->
        let words :=
          Text.split
            (Text.strip
               (Text.replace Text.underscore Text.space
                  (Text.replace Text.hyphen Text.space
                     (Text.replace Text.dot Text.space
                        (list_ascii_of_string name))))) in
        exists username,
          generate_username draws = inr username
          /\ String.length username = Nat.max 12 (S (length words))
          /\ (length words <= 11 <-> String.length username = 12)).
Proof.
  split.
  - intros H. unfold Managers.generate_username. rewrite H. reflexivity.
  - intros name H words. unfold Managers.generate_username. rewrite H.
    eexists. split; [reflexivity|].
    fold words.
    assert (Hlen : String.length
                     (string_of_list_ascii
                        (concat (map (fun word =>
                                        match word with
                                        | c :: _ => [Text.upper c]
                                        | [] => []
                                        end) words)
                         ++ [Text.hyphen]
                         ++ map (fun k => Managers.pick (draws k)
                                            Managers.alphabet)
                              (seq 0 (Z.to_nat
                                        (12 - Z.of_nat
                                                (length
                                                   (concat
                                                      (map (fun word =>
                                                         match word with
                                                         | c :: _ =>
                                                             [Text.upper c]
                                                         | [] => []
                                                         end) words)))
                                         - 1)))))
                   = Nat.max 12 (S (length words))).
    { rewrite string_of_list_ascii_length, !length_app, length_map,
        length_seq.
      rewrite (initials_length words) by apply split_from_nonempty.
      simpl length. lia. }
    split; [exact Hlen|]. rewrite Hlen. lia.
Qed.

Lemma setdefault_lookup (key key' : string) (v : Managers.PyVal)
    (d : gmap string Managers.PyVal) :
  Managers.setdefault key v d !! key'
  = if decide (key = key')
    then Some (default v (d !! key))
    else d !! key'.
Proof.
  unfold Managers.setdefault.
  destruct (d !! key) as [x|] eqn:Hd; destruct (decide (key = key'))
    as [->|Hne]; simpl.
  - exact Hd.
  - reflexivity.
  - apply lookup_insert_eq.
  - apply lookup_insert_ne. exact Hne.
Qed.

Lemma _create_user_attributes (email_ password_ : option string)
    (extra_fields : gmap string Managers.PyVal) (draws : nat -> nat)
    (user : gmap string Managers.PyVal) :
  Managers._create_user BANK_NAME normalize_email validate_email
    make_password accepts email_ password_ extra_fields draws = inr user ->
  exists e p username,
    email_ = Some e /\ e <> EmptyString
    /\ password_ = Some p /\ p <> EmptyString
    /\ generate_username draws = inr username
    /\ validate_email (normalize_email e) = true
    /\ user = <["password" := Managers.PStr (make_password p)]>
                (<["username" := Managers.PStr username]>
                   (<["email" := Managers.PStr (normalize_email e)]>
                      extra_fields)).
Proof.
  unfold Managers._create_user. intros H.
  destruct email_ as [[|c e]|]; try discriminate H.
  destruct password_ as [[|c' p]|]; try discriminate H.
  destruct (Managers.generate_username BANK_NAME draws) as [err|username];
    [discriminate H|].
  unfold Managers.validate_email_address in H.
  destruct (validate_email (normalize_email (String c e))) eqn:Hv;
    [|discriminate H].
  unfold Managers.model in H.
  destruct (bool_decide _ || bool_decide _); [discriminate H|].
  destruct (bool_decide _); [|discriminate H].
  inversion H; subst.
  exists (String c e), (String c' p), username.
  repeat split; auto; discriminate.
Qed.

(** X23.  [create_superuser] refuses, with a [ValueError] and before it
    looks at the email or the password, every call whose [is_staff] or
    [is_superuser] keyword is given and is not [True], [is_staff] first;
    and every instance it hands to [save] has both flags [True] and, as
    password, the hash of the one submitted. *)
Theorem create_superuser_flags
    (email_ password_ : option string)
    (extra_fields : gmap string Managers.PyVal) (draws : nat -> nat) :
  (forall v, extra_fields !! "is_staff" = Some v ->
     v <> Managers.PBool true ->
     create_superuser email_ password_ extra_fields draws
     = inl (Managers.ValueError "Superuser must have is_staff=True."))
  /\ (forall v, extra_fields !! "is_staff" = Some (Managers.PBool true)
                \/ extra_fields !! "is_staff" = None ->
        extra_fields !! "is_superuser" = Some v ->
        v <> Managers.PBool true ->
        create_superuser email_ password_ extra_fields draws
        = inl (Managers.ValueError "Superuser must have is_superuser=True."))
  /\ (forall user,
        create_superuser email_ password_ extra_fields draws = inr user ->
        user !! "is_staff" = Some (Managers.PBool true)
        /\ user !! "is_superuser" = Some (Managers.PBool true)
        /\ exists p, password_ = Some p
                     /\ user !! "password"
                        = Some (Managers.PStr (make_password p))).
Proof.
  unfold Managers.create_superuser.
  rewrite !setdefault_lookup. simpl.
  split; [|split].
  - intros v Hv Hne. rewrite Hv. simpl.
    destruct v as [|[]|n|s]; try reflexivity. congruence.
  - intros v Hstaff Hv Hne. rewrite Hv. simpl.
    assert (Hs : match default (Managers.PBool true)
                         (extra_fields !! "is_staff") with
                 | Managers.PBool true => false
                 | _ => true
                 end = false).
    { destruct Hstaff as [Hs | Hs]; rewrite Hs; reflexivity. }
    rewrite Hs.
    destruct v as [|[]|n|s]; try reflexivity. congruence.
  - intros user H.
    destruct (default (Managers.PBool true) (extra_fields !! "is_staff"))
      as [|[]|n|s] eqn:Hs; try discriminate H.
    destruct (default (Managers.PBool true) (extra_fields !! "is_superuser"))
      as [|[]|n|s] eqn:Hu; try discriminate H.
    apply _create_user_attributes in H.
    destruct H as (e & p & username & _ & _ & Hp & _ & _ & _ & ->).
    rewrite lookup_insert_eq.
    rewrite !(lookup_insert_ne _ _ "is_staff") by discriminate.
    rewrite !(lookup_insert_ne _ _ "is_superuser") by discriminate.
    rewrite !setdefault_lookup. simpl. rewrite Hs, Hu.
    split; [reflexivity|]. split; [reflexivity | eauto].
Qed.

(** X24.  [create_user] refuses a missing or empty email and then a missing
    or empty password with a [ValueError], so a call that leaves the
    password at its default [None] never creates a user.  An instance it
    hands to [save] stores the normalized email and the hash of the
    password, and its [is_staff] and [is_superuser] are the keywords given
    by the caller, [False] only when they are not given: the flags are
    defaults, not limits. *)
Theorem create_user_defaults
    (email_ password_ : option string)
    (extra_fields : gmap string Managers.PyVal) (draws : nat -> nat) :
  (email_ = None \/ email_ = Some EmptyString ->
   create_user email_ password_ extra_fields draws
   = inl (Managers.ValueError "An email address must be provided."))
  /\ (password_ = None \/ password_ = Some EmptyString ->
      exists message,
        create_user email_ password_ extra_fields draws
        = inl (Managers.ValueError message))
  /\ (forall user,
        create_user email_ password_ extra_fields draws = inr user ->
        user !! "is_staff"
        = Some (default (Managers.PBool false) (extra_fields !! "is_staff"))
        /\ user !! "is_superuser"
           = Some (default (Managers.PBool false)
                     (extra_fields !! "is_superuser"))
        /\ exists e p,
             email_ = Some e /\ password_ = Some p
             /\ user !! "email" = Some (Managers.PStr (normalize_email e))
             /\ user !! "password"
                = Some (Managers.PStr (make_password p))).
Proof.
  unfold Managers.create_user. split; [|split].
  - intros [-> | ->]; reflexivity.
  - intros Hp. unfold Managers._create_user.
    destruct email_ as [[|c e]|]; try (eexists; reflexivity).
    destruct Hp as [-> | ->]; eexists; reflexivity.
  - intros user H. apply _create_user_attributes in H.
    destruct H as (e & p & username & He & _ & Hp & _ & _ & _ & ->).
    rewrite lookup_insert_eq.
    rewrite !(lookup_insert_ne _ _ "is_staff") by discriminate.
    rewrite !(lookup_insert_ne _ _ "is_superuser") by discriminate.
    rewrite (lookup_insert_ne _ "password" "email") by discriminate.
    rewrite (lookup_insert_ne _ "username" "email") by discriminate.
    rewrite lookup_insert_eq.
    rewrite !setdefault_lookup. simpl.
    split; [reflexivity|]. split; [reflexivity|].
    exists e, p. auto.
Qed.

End ManagerFacts.

(** ** The forms *)

Section FormFacts.

Lemma existsb_email (db : list User) (e : string) :
  existsb (fun u => bool_decide (email u = e)) db = true <->
  e ∈ email <$> db.
Proof.
  rewrite existsb_exists, list_elem_of_fmap. split.
  - intros (u & Hin & Hu). apply bool_decide_eq_true in Hu.
    exists u. split; [congruence | apply list_elem_of_In; exact Hin].
  - intros (u & -> & Hin). exists u.
    split; [apply list_elem_of_In; exact Hin|].
    apply bool_decide_eq_true. reflexivity.
Qed.

(** X25.  [UserCreationForm.clean_email] refuses exactly the emails that
    some row already has, and returns every other email as it is; so adding
    a row with an accepted email to a table whose emails are pairwise
    different leaves them pairwise different. *)
Theorem creation_form_keeps_emails_unique (db : list User) (e : string) :
  (e ∈ email <$> db <->
   Forms.UserCreationForm_clean_email db e
   = inl (Managers.ValidationError "A user with that email already exist"))
  /\ (e ∉ email <$> db <-> Forms.UserCreationForm_clean_email db e = inr e)
  /\ (Forms.UserCreationForm_clean_email db e = inr e ->
      NoDup (email <$> db) ->
      forall new : User,
        email new = e -> NoDup (email <$> (db ++ [new]))).
Proof.
  unfold Forms.UserCreationForm_clean_email.
  pose proof (existsb_email db e) as Hex.
  destruct (existsb (fun u => bool_decide (email u = e)) db) eqn:E.
  - assert (Hin : e ∈ email <$> db) by (apply Hex; reflexivity).
    split; [split; auto|]. split; [split; [contradiction | discriminate]|].
    discriminate.
  - assert (Hnot : e ∉ email <$> db).
    { intros Hin. apply Hex in Hin. discriminate Hin. }
    split; [split; [contradiction | discriminate]|].
    split; [split; auto|].
    intros _ Hnd new Hnew. rewrite fmap_app. simpl. rewrite Hnew.
    apply NoDup_app. split; [exact Hnd|]. split.
    + intros x Hx Hx'. apply list_elem_of_singleton in Hx'. subst x.
      contradiction.
    + apply NoDup_singleton.
Qed.

(** X26.  [UserChangeForm.clean_email] compares only with the rows of
    another primary key.  In a table whose emails are pairwise different the
    identity being edited may keep its own email; the email of a row with
    another key is refused; and, the keys being pairwise different too,
    saving an accepted email on the edited row leaves the emails pairwise
    different. *)
Theorem change_form_keeps_emails_unique
    (db : list User) (i : nat) (u : User) :
  db !! i = Some u ->
  NoDup (email <$> db) ->
  Forms.UserChangeForm_clean_email db (user_id u) (email u) = inr (email u)
  /\ (forall j v, db !! j = Some v -> user_id v <> user_id u ->
        Forms.UserChangeForm_clean_email db (user_id u) (email v)
        = inl (Managers.ValidationError
                 "A user with that email already exists."))
  /\ (forall e,
        NoDup (user_id <$> db) ->
        Forms.UserChangeForm_clean_email db (user_id u) e = inr e ->
        NoDup (email <$> <[i := Forms.with_email u e]> db)).
Proof.
  intros Hi Hnd. unfold Forms.UserChangeForm_clean_email.
  assert (Hsame : forall j v, db !! j = Some v -> email v = email u -> j = i).
  { intros j v Hj He.
    eapply (NoDup_lookup (email <$> db)); [exact Hnd| |].
    - rewrite list_lookup_fmap, Hj. simpl. rewrite He. reflexivity.
    - rewrite list_lookup_fmap, Hi. reflexivity. }
  split; [|split].
  - destruct (existsb _ _) eqn:E; [|reflexivity].
    apply existsb_exists in E. destruct E as (v & Hin & Hv).
    apply bool_decide_eq_true in Hv.
    apply list_elem_of_In, list_elem_of_filter in Hin as [Hpk Hin].
    apply list_elem_of_lookup in Hin as [j Hj].
    assert (j = i) by (eapply Hsame; eauto). subst j.
    rewrite Hi in Hj. inversion Hj; subst. congruence.
  - intros j v Hj Hpk.
    assert (E : existsb (fun w => bool_decide (email w = email v))
                  (filter (fun w => user_id w <> user_id u) db) = true).
    { apply existsb_exists. exists v. split.
      - apply list_elem_of_In, list_elem_of_filter. split; [exact Hpk|].
        eapply list_elem_of_lookup_2; eauto.
      - apply bool_decide_eq_true. reflexivity. }
    rewrite E. reflexivity.
  - intros e Hpks Hok.
    destruct (existsb _ _) eqn:E; [discriminate Hok|].
    apply NoDup_alt. intros a b x Ha Hb.
    rewrite list_lookup_fmap in Ha, Hb.
    assert (Hrow : forall k y,
               email <$> (<[i := Forms.with_email u e]> db !! k) = Some y ->
               (k = i /\ y = e)
               \/ (k <> i /\ exists v, db !! k = Some v /\ email v = y)).
    { intros k y Hk. destruct (decide (k = i)) as [->|Hki].
      - left. split; [reflexivity|].
        rewrite list_lookup_insert_eq in Hk
          by (eapply lookup_lt_Some; eauto).
        simpl in Hk. congruence.
      - right. split; [exact Hki|].
        rewrite list_lookup_insert_ne in Hk by congruence.
        destruct (db !! k) as [v|]; [|discriminate Hk].
        simpl in Hk. inversion Hk; subst. eauto. }
    assert (Hfree : forall k v, k <> i -> db !! k = Some v -> email v <> e).
    { intros k v Hki Hk He.
      assert (Hpk : user_id v <> user_id u).
      { intros Heq. apply Hki.
        eapply (NoDup_lookup (user_id <$> db)); [exact Hpks| |].
        - rewrite list_lookup_fmap, Hk. simpl. rewrite Heq. reflexivity.
        - rewrite list_lookup_fmap, Hi. reflexivity. }
      assert (E' : existsb (fun w => bool_decide (email w = e))
                     (filter (fun w => user_id w <> user_id u) db) = true).
      { apply existsb_exists. exists v. split.
        - apply list_elem_of_In, list_elem_of_filter. split; [exact Hpk|].
          eapply list_elem_of_lookup_2; eauto.
        - apply bool_decide_eq_true. exact He. }
      congruence. }
    destruct (Hrow a x Ha) as [[Ha1 Ha2] | (Hai & va & Hva & Hxa)];
      destruct (Hrow b x Hb) as [[Hb1 Hb2] | (Hbi & vb & Hvb & Hxb)].
    + congruence.
    + exfalso. apply (Hfree b vb Hbi Hvb). congruence.
    + exfalso. apply (Hfree a va Hai Hva). congruence.
    + eapply (NoDup_lookup (email <$> db)); [exact Hnd| |].
      * rewrite list_lookup_fmap, Hva. simpl. rewrite Hxa. reflexivity.
      * rewrite list_lookup_fmap, Hvb. simpl. rewrite Hxb. reflexivity.
Qed.

End FormFacts.

(** ** The further properties at the concrete policy *)

Lemma failure_counter_grows_or_resets_witness :
  call policy CallResetFailedLoginAttempts 9%Z alice_locked
  = Ok (reset_failed_login_attempts alice_locked)
  /\ (failed_login_attempts alice_locked
      <= failed_login_attempts (reset_failed_login_attempts alice_locked)
      \/ (failed_login_attempts (reset_failed_login_attempts alice_locked) = 0
          /\ account_status (reset_failed_login_attempts alice_locked)
             = ACTIVE
          /\ last_failed_login (reset_failed_login_attempts alice_locked)
             = None)).
Proof.
  assert (H : call policy CallResetFailedLoginAttempts 9%Z alice_locked
              = Ok (reset_failed_login_attempts alice_locked))
    by reflexivity.
  split; [exact H|].
  exact (failure_counter_grows_or_resets policy
           CallResetFailedLoginAttempts 9%Z alice_locked _ H).
Defined.

Lemma reachable_locked_iff_threshold_witness :
  let self := assign_lockout alice LOCKED 5 (Some 5%Z) in
  (0 < LOGIN_ATTEMPTS policy)%Z
  /\ run policy (failures [1%Z; 2%Z; 3%Z; 4%Z; 5%Z])
       (registered 1 "alice@example.com" "pbkdf2$a") = Ok self
  /\ (account_status self = LOCKED <->
      (LOGIN_ATTEMPTS policy <= Z.of_nat (failed_login_attempts self))%Z)
  /\ (account_status self = LOCKED ->
      exists last, last_failed_login self = Some last).
Proof.
  intros self.
  assert (Hpos : (0 < LOGIN_ATTEMPTS policy)%Z) by (vm_compute; reflexivity).
  assert (Hrun : run policy (failures [1%Z; 2%Z; 3%Z; 4%Z; 5%Z])
                   (registered 1 "alice@example.com" "pbkdf2$a") = Ok self)
    by reflexivity.
  split; [exact Hpos|]. split; [exact Hrun|].
  exact (reachable_locked_iff_threshold policy _ _ _ _ _ Hpos Hrun).
Defined.

Lemma failure_at_threshold_starts_window_witness :
  let self := assign_lockout alice ACTIVE 4 None in
  let locked := assign_lockout alice LOCKED 5 (Some 0%Z) in
  (LOGIN_ATTEMPTS policy <= Z.of_nat (S (failed_login_attempts self)))%Z
  /\ (Z.of_nat (S (failed_login_attempts self)) <= SMALLINT_MAX)%Z
  /\ (minutes 30 - 0 <= LOCKOUT_DURATION policy)%Z
  /\ handle_failed_login_attempts_saved policy self 0%Z
     = Ok (locked, [AccountLockedMail "alice@example.com" 30])
  /\ is_locked_out policy locked (minutes 30) = (true, locked).
Proof.
  intros self locked.
  assert (H1 : (LOGIN_ATTEMPTS policy
                <= Z.of_nat (S (failed_login_attempts self)))%Z)
    by (vm_compute; discriminate).
  assert (H2 : (Z.of_nat (S (failed_login_attempts self))
                <= SMALLINT_MAX)%Z) by (vm_compute; discriminate).
  assert (H3 : (minutes 30 - 0 <= LOCKOUT_DURATION policy)%Z)
    by (vm_compute; discriminate).
  split; [exact H1|]. split; [exact H2|]. split; [exact H3|].
  destruct (failure_at_threshold_starts_window policy self 0%Z (minutes 30)
              H1 H2) as (Hsaved & Hwithin & _).
  split; [exact Hsaved | exact (Hwithin H3)].
Defined.

Lemma consecutive_failures_lock_at_threshold_witness :
  (Z.of_nat (length [1%Z; 2%Z; 3%Z; 4%Z]) <= SMALLINT_MAX)%Z
  /\ exists self,
       handle_failed_login_attempts_each policy (registered 1 "a@b.c" "x")
         [1%Z; 2%Z; 3%Z; 4%Z]
       = Ok self
       /\ failed_login_attempts self = 4
       /\ last_failed_login self = Some 4%Z
       /\ otp self = EmptyString
       /\ (account_status self = LOCKED <->
           [1%Z; 2%Z; 3%Z; 4%Z] <> []
           /\ (LOGIN_ATTEMPTS policy <= 4)%Z).
Proof.
  assert (H : (Z.of_nat (length [1%Z; 2%Z; 3%Z; 4%Z]) <= SMALLINT_MAX)%Z)
    by (vm_compute; discriminate).
  split; [exact H|].
  destruct (consecutive_failures_lock_at_threshold policy 1 "a@b.c" "x"
              [1%Z; 2%Z; 3%Z; 4%Z]) as [Hfits _].
  exact (Hfits H).
Defined.

Lemma is_locked_out_read_is_stable_witness :
  let read := is_locked_out policy alice_locked (minutes 31) in
  fst read = false
  /\ is_locked_out policy (snd read) 0%Z = (false, snd read).
Proof.
  intros read.
  assert (H : fst read = false) by reflexivity.
  split; [exact H|].
  destruct (is_locked_out_read_is_stable policy alice_locked (minutes 31))
    as [_ Hfinal].
  exact (Hfinal H 0%Z).
Defined.

Lemma set_otp_then_verify_otp_witness :
  "123456" <> EmptyString
  /\ verify_otp (assign_otp alice EmptyString None) "123456" 7%Z
     = Ok (false, assign_otp alice EmptyString None).
Proof.
  assert (H : "123456" <> EmptyString) by discriminate.
  split; [exact H|].
  destruct (set_otp_then_verify_otp policy alice "123456" 0%Z 1%Z)
    as (_ & _ & _ & _ & Hagain).
  exact (Hagain H 7%Z).
Defined.

Lemma verify_otp_raises_iff_witness :
  otp_paired alice
  /\ (verify_otp alice EmptyString 1%Z = Raise TypeError <->
      EmptyString = EmptyString /\ otp alice = EmptyString).
Proof.
  assert (H : otp_paired alice) by (split; reflexivity).
  split; [exact H|].
  destruct (verify_otp_raises_iff alice EmptyString 1%Z) as (_ & _ & Hp).
  exact (Hp H).
Defined.

Lemma endpoints_keep_otp_paired_witness :
  Forall otp_paired [alice; bob_pending]
  /\ Forall otp_paired
       (snd (fst (CustomTokenCreateView_post policy check_password show
                    show_0f [alice; bob_pending]
                    {| data_email := Some "alice@example.com";
                       data_password := Some "pbkdf2$a" |}
                    1%Z 2%Z 3%Z counting))).
Proof.
  assert (H : Forall otp_paired [alice; bob_pending]).
  { repeat constructor; intros H; discriminate H. }
  split; [exact H|].
  destruct (endpoints_keep_otp_paired policy check_password show show_0f
              [alice; bob_pending]
              {| data_email := Some "alice@example.com";
                 data_password := Some "pbkdf2$a" |}
              Absent 1%Z 2%Z 3%Z 4%Z 5%Z 6%Z counting 7 8 H) as [Hlogin _].
  exact Hlogin.
Defined.

Lemma endpoints_keep_lockout_invariants_witness :
  (0 < LOGIN_ATTEMPTS policy)%Z
  /\ Forall (lockout_consistent policy) [alice; bob]
  /\ Forall (lockout_consistent policy)
       (snd (fst (CustomTokenCreateView_post policy check_password show
                    show_0f [alice; bob]
                    {| data_email := Some "alice@example.com";
                       data_password := Some "guess" |}
                    1%Z 2%Z 3%Z counting))).
Proof.
  assert (Hpos : (0 < LOGIN_ATTEMPTS policy)%Z) by (vm_compute; reflexivity).
  assert (H : Forall (lockout_consistent policy) [alice; bob]).
  { repeat constructor; intros _; vm_compute; reflexivity. }
  split; [exact Hpos|]. split; [exact H|].
  destruct (endpoints_keep_lockout_invariants policy check_password show
              show_0f [alice; bob]
              {| data_email := Some "alice@example.com";
                 data_password := Some "guess" |}
              Absent 1%Z 2%Z 3%Z 4%Z 5%Z 6%Z counting 7 8) as [_ Hcons].
  destruct (Hcons Hpos H) as [Hlogin _]. exact Hlogin.
Defined.

Lemma login_failure_recorded_witness :
  let request := {| data_email := Some "alice@example.com";
                    data_password := Some "guess" |} in
  let full := assign_lockout alice LOCKED (Z.to_nat SMALLINT_MAX) None in
  first_row (fun u => check_password u request) [alice; bob] = None
  /\ first_row (fun u => bool_decide (Some (email u) = data_email request))
       [alice; bob] = Some (0, alice)
  /\ (Z.of_nat (S (failed_login_attempts alice)) <= SMALLINT_MAX)%Z
  /\ (Z.of_nat (S (failed_login_attempts alice)) < LOGIN_ATTEMPTS policy)%Z
  /\ CustomTokenCreateView_post_saved policy check_password show show_0f
       [alice; bob] request 9%Z 9%Z 9%Z counting
     = (Ok invalid_credentials_response,
        [assign_lockout alice ACTIVE 1 (Some 9%Z); bob], [])
  /\ first_row (fun u => check_password u request) [full; bob] = None
  /\ first_row (fun u => bool_decide (Some (email u) = data_email request))
       [full; bob] = Some (0, full)
  /\ (SMALLINT_MAX < Z.of_nat (S (failed_login_attempts full)))%Z
  /\ CustomTokenCreateView_post_saved policy check_password show show_0f
       [full; bob] request 9%Z 9%Z 9%Z counting
     = (Raise DataError, [full; bob], []).
Proof.
  intros request full.
  assert (H1 : first_row (fun u => check_password u request) [alice; bob]
               = None) by reflexivity.
  assert (H2 : first_row
                 (fun u => bool_decide (Some (email u) = data_email request))
                 [alice; bob] = Some (0, alice)) by reflexivity.
  assert (H3 : (Z.of_nat (S (failed_login_attempts alice))
                <= SMALLINT_MAX)%Z) by (vm_compute; discriminate).
  assert (H4 : (Z.of_nat (S (failed_login_attempts alice))
                < LOGIN_ATTEMPTS policy)%Z) by (vm_compute; reflexivity).
  assert (H5 : first_row (fun u => check_password u request) [full; bob]
               = None) by reflexivity.
  assert (H6 : first_row
                 (fun u => bool_decide (Some (email u) = data_email request))
                 [full; bob] = Some (0, full)) by reflexivity.
  assert (H7 : (SMALLINT_MAX < Z.of_nat (S (failed_login_attempts full)))%Z)
    by (vm_compute; reflexivity).
  split; [exact H1|]. split; [exact H2|]. split; [exact H3|].
  split; [exact H4|]. split.
  - destruct (login_failure_recorded policy check_password show show_0f
                [alice; bob] request 0 alice 9%Z 9%Z 9%Z counting H1 H2)
      as [Hfits _].
    destruct (Hfits H3) as [Hbelow _].
    exact (Hbelow H4).
  - split; [exact H5|]. split; [exact H6|]. split; [exact H7|].
    destruct (login_failure_recorded policy check_password show show_0f
                [full; bob] request 0 full 9%Z 9%Z 9%Z counting H5 H6)
      as (_ & Hover & _).
    exact (Hover H7).
Defined.


Lemma otp_session_only_for_code_holder_witness :
  let out :=
    OTPVerifyView_post policy show [alice_pending; bob] (Text "123456")
      1%Z 2%Z 3%Z 4%Z 11 12 in
  exists response,
    fst out = Ok response
    /\ status_code response = 200
    /\ exists (i : nat) (user : User),
         [alice_pending; bob] !! i = Some user /\ otp user = "123456".
Proof.
  intros out.
  assert (H : exists response, fst out = Ok response
                               /\ status_code response = 200).
  { eexists. split; reflexivity. }
  destruct H as (response & H1 & H2).
  exists response. split; [exact H1|]. split; [exact H2|].
  destruct (otp_session_only_for_code_holder policy show
              [alice_pending; bob] (Text "123456") 1%Z 2%Z 3%Z 4%Z 11 12
              response H1 H2)
    as (i & user & expiry & _ & Hi & Ho & _).
  exists i, user. split; [exact Hi | exact Ho].
Defined.

Lemma otp_session_despite_failed_verification_witness :
  let number := NonText true "123456" in
  falsy number = false
  /\ first_row (otp_lookup (as_text number) 1%Z) [alice_pending; bob]
     = Some (0, alice_pending)
  /\ otp_expiry_time alice_pending = Some (minutes 5)
  /\ fst (is_locked_out policy alice_pending 2%Z) = false
  /\ snd (OTPVerifyView_post policy show [alice_pending; bob]
            number 1%Z 2%Z 3%Z 4%Z 11 12)
     = [alice_pending; bob]
  /\ (exists response,
        fst (OTPVerifyView_post policy show [alice_pending; bob]
               number 1%Z 2%Z 3%Z 4%Z 11 12)
        = Ok response
        /\ status_code response = 200)
  /\ falsy (Text "123456") = false
  /\ first_row (otp_lookup (as_text (Text "123456")) 1%Z)
       [alice_pending; bob]
     = Some (0, alice_pending)
  /\ snd (OTPVerifyView_post policy show [alice_pending; bob]
            (Text "123456") 1%Z 2%Z (minutes 5) (minutes 5) 11 12)
     = [alice_pending; bob].
Proof.
  intros number.
  assert (H0 : falsy number = false) by reflexivity.
  assert (H1 : first_row (otp_lookup (as_text number) 1%Z)
                 [alice_pending; bob]
               = Some (0, alice_pending)) by reflexivity.
  assert (H3 : otp_expiry_time alice_pending = Some (minutes 5))
    by reflexivity.
  assert (H4 : fst (is_locked_out policy alice_pending 2%Z) = false)
    by reflexivity.
  assert (H5 : falsy (Text "123456") = false) by reflexivity.
  assert (H6 : first_row (otp_lookup (as_text (Text "123456")) 1%Z)
                 [alice_pending; bob]
               = Some (0, alice_pending)) by reflexivity.
  split; [exact H0|]. split; [exact H1|]. split; [exact H3|].
  split; [exact H4|].
  destruct (otp_session_despite_failed_verification policy show
              [alice_pending; bob] number 0 alice_pending (minutes 5)
              1%Z 2%Z 3%Z 4%Z 11 12 H0 H1 H3 H4)
    as [Hpost _].
  rewrite Hpost. split; [reflexivity|].
  split; [eexists; split; reflexivity|].
  split; [exact H5|]. split; [exact H6|].
  destruct (otp_session_despite_failed_verification policy show
              [alice_pending; bob] (Text "123456") 0 alice_pending
              (minutes 5) 1%Z 2%Z (minutes 5) (minutes 5) 11 12
              H5 H6 H3 H4)
    as [Hlate _].
  rewrite Hlate. reflexivity.
Defined.

Lemma otp_refusal_writes_nothing_witness :
  let out :=
    OTPVerifyView_post policy show [alice_locked; bob] (Text "123456")
      1%Z 2%Z 3%Z 4%Z 11 12 in
  fst out = Ok (otp_locked_response policy show)
  /\ status_code (otp_locked_response policy show) <> 200
  /\ snd out = [alice_locked; bob].
Proof.
  intros out.
  assert (H1 : fst out = Ok (otp_locked_response policy show))
    by reflexivity.
  assert (H2 : status_code (otp_locked_response policy show) <> 200)
    by discriminate.
  split; [exact H1|]. split; [exact H2|].
  destruct (otp_refusal_writes_nothing policy show [alice_locked; bob]
              (Text "123456") 1%Z 2%Z 3%Z 4%Z 11 12 _ H1 H2) as [H _].
  exact H.
Defined.

Lemma set_auth_cookies_sets_three_witness :
  truthy (Some (Jwt alice_refresh)) = true
  /\ httponly
     <$> cookies (set_auth_cookies policy SIMPLE_JWT
                    login_successful_response (Str "a")
                    (Some (Jwt alice_refresh))) !! "refresh"
     = Some true
  /\ (truthy (Some (Str EmptyString)) = false
      /\ cookies (set_auth_cookies policy SIMPLE_JWT
                    login_successful_response (Str "a")
                    (Some (Str EmptyString))) !! "refresh"
         = None).
Proof.
  assert (H1 : truthy (Some (Jwt alice_refresh)) = true) by reflexivity.
  assert (H2 : truthy (Some (Str EmptyString)) = false) by reflexivity.
  split; [exact H1|]. split.
  - destruct (set_auth_cookies_sets_three policy SIMPLE_JWT
                login_successful_response (Str "a")
                (Some (Jwt alice_refresh)))
      as (_ & _ & _ & _ & H & _).
    rewrite (H _ eq_refl H1). reflexivity.
  - split; [exact H2|].
    destruct (set_auth_cookies_sets_three policy SIMPLE_JWT
                login_successful_response (Str "a")
                (Some (Str EmptyString)))
      as (_ & _ & _ & _ & _ & H & _).
    rewrite (H H2). reflexivity.
Defined.

Lemma logout_expires_session_cookies_witness :
  truthy (Some (Jwt alice_refresh)) = true
  /\ dom (cookies Logout.LogoutAPIView_post)
     = dom (cookies (set_auth_cookies policy SIMPLE_JWT
                       (respond [] 200) (Str "a")
                       (Some (Jwt alice_refresh)))).
Proof.
  assert (H : truthy (Some (Jwt alice_refresh)) = true) by reflexivity.
  split; [exact H|].
  destruct (logout_expires_session_cookies policy SIMPLE_JWT [] 200
              (Str "a") (Jwt alice_refresh) H) as (_ & _ & Hdom & _).
  exact Hdom.
Defined.

Lemma refresh_reads_cookie_before_body_witness :
  let other :=
    {| COOKIES := {["refresh" := Jwt alice_refresh]};
       request_data := {["refresh" := Str "something else"]} |} in
  truthy (COOKIES refresh_request !! "refresh") = true
  /\ presented_refresh_token refresh_request = presented_refresh_token other
  /\ CustomTokenRefreshView_post_on policy false SIMPLE_JWT ∅ refresh_request
       1%Z 21 22
     = (Raise AttributeError, ∅)
  /\ CustomTokenRefreshView_post_on policy true SIMPLE_JWT ∅ refresh_request
       1%Z 21 22
     = CustomTokenRefreshView_post_on policy true SIMPLE_JWT ∅ other
         1%Z 21 22.
Proof.
  intros other.
  assert (Ht : truthy (COOKIES refresh_request !! "refresh") = true)
    by reflexivity.
  assert (H : presented_refresh_token refresh_request
              = presented_refresh_token other) by reflexivity.
  split; [exact Ht|]. split; [exact H|].
  destruct (refresh_reads_cookie_before_body policy SIMPLE_JWT ∅ 1%Z 21 22)
    as [Hraise Hsame].
  split; [exact (Hraise refresh_request Ht)|].
  destruct (Hsame true true refresh_request other
              (or_introl eq_refl) (or_introl eq_refl) H) as [Heq _].
  exact Heq.
Defined.

Lemma full_name_stripped_title_witness :
  Forall (fun c => Text.isspace c = true) (list_ascii_of_string " ")
  /\ Forall (fun c => Text.isspace c = true) (list_ascii_of_string EmptyString)
  /\ Names.full_name " " EmptyString = EmptyString
  /\ Names.full_name " ada" "o'neil-SMITH " = "Ada O'Neil-Smith".
Proof.
  assert (H1 : Forall (fun c => Text.isspace c = true)
                 (list_ascii_of_string " "))
    by (repeat constructor).
  assert (H2 : Forall (fun c => Text.isspace c = true)
                 (list_ascii_of_string EmptyString))
    by constructor.
  split; [exact H1|]. split; [exact H2|]. split.
  - destruct (full_name_stripped_title " " EmptyString)
      as (_ & _ & _ & _ & H).
    exact (H H1 H2).
  - vm_compute. reflexivity.
Defined.

Lemma generate_username_length_witness :
  ManagerFixtures.bank_name = Some "First_bank-stream plc"
  /\ Managers.generate_username ManagerFixtures.bank_name counting
     = inr "FBSP-BCDEFGH"
  /\ exists username,
       Managers.generate_username ManagerFixtures.bank_name counting
       = inr username
       /\ String.length username = 12.
Proof.
  assert (H : ManagerFixtures.bank_name = Some "First_bank-stream plc")
    by reflexivity.
  split; [exact H|]. split; [vm_compute; reflexivity|].
  destruct (generate_username_length ManagerFixtures.bank_name counting)
    as [_ Hset].
  destruct (Hset _ H) as (username & Hu & Hlen & _).
  exists username. split; [exact Hu|]. rewrite Hlen. reflexivity.
Defined.

Lemma create_superuser_flags_witness :
  let extra_fields : gmap string Managers.PyVal :=
    {["is_staff" := Managers.PBool false]} in
  extra_fields !! "is_staff" = Some (Managers.PBool false)
  /\ Managers.PBool false <> Managers.PBool true
  /\ Managers.create_superuser ManagerFixtures.bank_name
       ManagerFixtures.keep ManagerFixtures.valid ManagerFixtures.tagged
       ManagerFixtures.any_keyword
       (Some "root@example.com") (Some "secret") extra_fields counting
     = inl (Managers.ValueError "Superuser must have is_staff=True.").
Proof.
  intros extra_fields.
  assert (H1 : extra_fields !! "is_staff" = Some (Managers.PBool false))
    by reflexivity.
  assert (H2 : Managers.PBool false <> Managers.PBool true) by discriminate.
  split; [exact H1|]. split; [exact H2|].
  destruct (create_superuser_flags ManagerFixtures.bank_name
              ManagerFixtures.keep ManagerFixtures.valid
              ManagerFixtures.tagged ManagerFixtures.any_keyword
              (Some "root@example.com") (Some "secret") extra_fields counting)
    as [H _].
  exact (H _ H1 H2).
Defined.

Lemma create_user_defaults_witness :
  let extra_fields : gmap string Managers.PyVal :=
    {["is_superuser" := Managers.PBool true]} in
  exists user,
    Managers.create_user ManagerFixtures.bank_name ManagerFixtures.keep
      ManagerFixtures.valid ManagerFixtures.tagged
      ManagerFixtures.any_keyword
      (Some "eve@example.com") (Some "secret") extra_fields counting
    = inr user
    /\ user !! "is_superuser" = Some (Managers.PBool true)
    /\ user !! "is_staff" = Some (Managers.PBool false).
Proof.
  intros extra_fields.
  assert (H : exists user,
             Managers.create_user ManagerFixtures.bank_name
               ManagerFixtures.keep ManagerFixtures.valid
               ManagerFixtures.tagged ManagerFixtures.any_keyword
               (Some "eve@example.com") (Some "secret") extra_fields
               counting = inr user).
  { eexists. vm_compute. reflexivity. }
  destruct H as (user & Hu). exists user. split; [exact Hu|].
  destruct (create_user_defaults ManagerFixtures.bank_name
              ManagerFixtures.keep ManagerFixtures.valid
              ManagerFixtures.tagged ManagerFixtures.any_keyword
              (Some "eve@example.com") (Some "secret") extra_fields counting)
    as (_ & _ & Hflags).
  destruct (Hflags user Hu) as (Hstaff & Hsuper & _).
  split; [exact Hsuper | exact Hstaff].
Defined.

Lemma creation_form_keeps_emails_unique_witness :
  Forms.UserCreationForm_clean_email [alice; bob] "carol@example.com"
  = inr "carol@example.com"
  /\ NoDup (email <$> [alice; bob])
  /\ NoDup (email <$> ([alice; bob]
                       ++ [registered 3 "carol@example.com" "pbkdf2$c"])).
Proof.
  assert (H1 : Forms.UserCreationForm_clean_email [alice; bob]
                 "carol@example.com" = inr "carol@example.com")
    by reflexivity.
  assert (H2 : NoDup (email <$> [alice; bob])).
  { apply NoDup_cons. split; [|apply NoDup_singleton].
    intros H. apply list_elem_of_singleton in H. discriminate H. }
  split; [exact H1|]. split; [exact H2|].
  destruct (creation_form_keeps_emails_unique [alice; bob]
              "carol@example.com") as (_ & _ & H).
  exact (H H1 H2 (registered 3 "carol@example.com" "pbkdf2$c") eq_refl).
Defined.

Lemma change_form_keeps_emails_unique_witness :
  [alice; bob] !! 0 = Some alice
  /\ NoDup (email <$> [alice; bob])
  /\ Forms.UserChangeForm_clean_email [alice; bob] (user_id alice)
       (email alice) = inr (email alice)
  /\ Forms.UserChangeForm_clean_email [alice; bob] (user_id alice)
       (email bob)
     = inl (Managers.ValidationError "A user with that email already exists.").
Proof.
  assert (H1 : [alice; bob] !! 0 = Some alice) by reflexivity.
  assert (H2 : NoDup (email <$> [alice; bob])).
  { apply NoDup_cons. split; [|apply NoDup_singleton].
    intros H. apply list_elem_of_singleton in H. discriminate H. }
  split; [exact H1|]. split; [exact H2|].
  destruct (change_form_keeps_emails_unique [alice; bob] 0 alice H1 H2)
    as (Hown & Hother & _).
  split; [exact Hown|].
  apply (Hother 1 bob); [reflexivity | discriminate].
Defined.
